(** * Face-detection microservice (ml-service/main.py): shallow embedding

    The service decodes a base64 image, hands it to a detection model and
    composes a small response.  The embedding follows main.py function by
    function:

    - Python [float] is IEEE binary64, modelled by Rocq's primitive floats
      ([PrimFloat]) and reasoned about through their specification
      ([Prim2SF], [SpecFloat]);
    - Python [int] is [Z];
    - exceptions are values of [Res]: a computation returns [Ok v] or
      [Raise e];
    - the third-party libraries (base64, Pillow, numpy, the detection
      model) are not part of the repository: they are the fields of [Libs]
      and [YOLO], arbitrary functions that may raise. *)

From Stdlib Require Import Floats.
From Stdlib Require Import ZArith List String Ascii Bool Lia.
From Stdlib.Strings Require Import Byte.
From Stdlib Require Import Uint63 Reals Lra.
Import ListNotations.

Local Open Scope string_scope.
Local Open Scope Z_scope.
Local Open Scope list_scope.

(** ** Exceptions and results *)

(** The exception classes the handler tells apart.  [ValueError] stands for
    the class and its subclasses (what [except ValueError] catches); every
    class here derives from [Exception]. *)
Inductive ExcClass : Type :=
  | ValueError
  | IndexError
  | ZeroDivisionError
  | OverflowError
  | OtherException (name : string).

Record PyExc : Type := mkExc { exc_class : ExcClass; exc_msg : string }.

(** [str(e)] *)
Definition str (e : PyExc) : string := exc_msg e.

Definition isinstance_ValueError (e : PyExc) : bool :=
  match exc_class e with
  | ValueError => true
  | _ => false
  end.

Inductive Res (A : Type) : Type :=
  | Ok (a : A)
  | Raise (e : PyExc).
Arguments Ok {A} a.
Arguments Raise {A} e.

Definition bind {A B : Type} (m : Res A) (k : A -> Res B) : Res B :=
  match m with
  | Ok a => k a
  | Raise e => Raise e
  end.

Notation "x <- m ;; k" := (bind m (fun x => k))
  (at level 61, m at next level, right associativity).

(** ** Numbers *)

Module PyFloat.

(** Float literals of main.py, written as the binary64 value Python reads. *)
Definition f0_4 : float := 0x1.999999999999ap-2%float.   (* 0.4  *)
Definition f0_95 : float := 0x1.e666666666666p-1%float.  (* 0.95 *)
Definition f0_5 : float := 0.5%float.
Definition f0 : float := 0%float.
Definition f2 : float := 2%float.
Definition f1000 : float := 1000%float.

(** [float(n)] for an int: exact below 2^53, rounded to nearest even up to
    2^63 (image sizes are C ints, far below). *)
Definition of_int (n : Z) : float :=
  match n with
  | Z0 => 0%float
  | Zpos _ => PrimFloat.of_uint63 (Uint63.of_Z n)
  | Zneg p => PrimFloat.opp (PrimFloat.of_uint63 (Uint63.of_Z (Zpos p)))
  end.

(** The integer part of the finite number [(-1)^s * m * 2^e], truncated
    towards zero. *)
Definition trunc_finite (s : bool) (m : positive) (e : Z) : Z :=
  let a := match e with
           | Zneg k => Zpos m / 2 ^ Zpos k
           | _ => Zpos m * 2 ^ e
           end in
  if s then - a else a.

(** [int(x)] for a float. *)
Definition to_int (x : float) : Res Z :=
  match Prim2SF x with
  | S754_nan => Raise (mkExc ValueError "cannot convert float NaN to integer")
  | S754_infinity _ =>
      Raise (mkExc OverflowError "cannot convert float infinity to integer")
  | S754_zero _ => Ok 0
  | S754_finite s m e => Ok (trunc_finite s m e)
  end.

(** [a / b] on floats. *)
Definition truediv (a b : float) : Res float :=
  if PrimFloat.eqb b 0%float
  then Raise (mkExc ZeroDivisionError "float division by zero")
  else Ok (PrimFloat.div a b).

(** [a / b] on ints (true division), for operands below 2^53 in
    magnitude, where it is the binary64 quotient of the two converted
    operands. *)
Definition int_truediv (a b : Z) : Res float :=
  if b =? 0
  then Raise (mkExc ZeroDivisionError "division by zero")
  else Ok (PrimFloat.div (of_int a) (of_int b)).

(** [x > y] *)
Definition gt (x y : float) : bool := PrimFloat.ltb y x.

(** [max(l)] on a non-empty list: the first element is kept until a
    strictly greater one is met. *)
Definition max_from (first : float) (rest : list float) : float :=
  fold_left (fun best item => if gt item best then item else best) rest first.

Definition max (l : list float) : Res float :=
  match l with
  | [] => Raise (mkExc ValueError "max() arg is an empty sequence")
  | c :: rest => Ok (max_from c rest)
  end.

End PyFloat.

(** ** Strings *)

Module PyStr.

(** [c in s] for a one-character [c]. *)
Fixpoint contains_char (c : ascii) (s : string) : bool :=
  match s with
  | EmptyString => false
  | String d s' => if Ascii.eqb d c then true else contains_char c s'
  end.

(** [s.split(c)] for a one-character separator. *)
Fixpoint split (sep : ascii) (s : string) : list string :=
  match s with
  | EmptyString => [EmptyString]
  | String d s' =>
      if Ascii.eqb d sep then EmptyString :: split sep s'
      else match split sep s' with
           | p :: ps => String d p :: ps
           | [] => [String d EmptyString]
           end
  end.

(** [l[i]] *)
Definition index {A : Type} (l : list A) (i : nat) : Res A :=
  match nth_error l i with
  | Some a => Ok a
  | None => Raise (mkExc IndexError "list index out of range")
  end.

(** [needle in s] for strings. *)
Fixpoint contains (needle s : string) : bool :=
  if String.prefix needle s then true
  else match s with
       | EmptyString => false
       | String _ s' => contains needle s'
       end.

End PyStr.

(** ** Base64 text (RFC 4648), as the clients produce it

    Clients build the request with Python's [base64.b64encode]
    (test_face_detection.py, test_real_face.py): three bytes become four
    characters of the standard alphabet, the tail is padded with [=]. *)

Module Base64.

Definition alphabet : string :=
  "ABCDEFGHIJKLMNOPQRSTUVWXYZabcdefghijklmnopqrstuvwxyz0123456789+/".

Definition pad : ascii := "="%char.

Definition digit (n : N) : ascii :=
  match String.get (N.to_nat n) alphabet with
  | Some c => c
  | None => pad
  end.

Fixpoint b64encode (bs : list byte) : string :=
  match bs with
  | [] => EmptyString
  | [a] =>
      let x := Byte.to_N a in
      String (digit (x / 4))
        (String (digit ((x mod 4) * 16))
           (String pad (String pad EmptyString)))
  | [a; b] =>
      let x := Byte.to_N a in
      let y := Byte.to_N b in
      String (digit (x / 4))
        (String (digit ((x mod 4) * 16 + y / 16))
           (String (digit ((y mod 16) * 4)) (String pad EmptyString)))
  | a :: b :: c :: rest =>
      let x := Byte.to_N a in
      let y := Byte.to_N b in
      let z := Byte.to_N c in
      String (digit (x / 4))
        (String (digit ((x mod 4) * 16 + y / 16))
           (String (digit ((y mod 16) * 4 + z / 64))
              (String (digit (z mod 64)) (b64encode rest))))
  end%N.

End Base64.

(** ** Images and the external libraries *)

(** A Pillow image, as far as main.py looks at it: its mode, its size and
    the pixel buffer (opaque). *)
Record Image : Type := mkImage {
  mode : string;
  width : Z;
  height : Z;
  pixels : list byte
}.

Definition size (im : Image) : Z * Z := (width im, height im).

(** The library calls of [decode_base64_image]: [base64.b64decode],
    [Image.open(BytesIO(..))], [image.convert(mode)] and
    [image.resize(size, LANCZOS)].  Each may raise. *)
Record Libs : Type := mkLibs {
  b64decode : string -> Res (list byte);
  Image_open : list byte -> Res Image;
  Image_convert : Image -> string -> Res Image;
  Image_resize : Image -> Z * Z -> Res Image
}.

(** What Pillow guarantees: the sides of an opened image are non-negative
    C ints, [convert] returns an image of the requested mode and the same
    size, [resize] an image of the requested size. *)
Record Pillow_contract (L : Libs) : Prop := {
  open_size : forall data im,
    Image_open L data = Ok im ->
    0 <= width im < 2 ^ 31 /\ 0 <= height im < 2 ^ 31;
  convert_mode : forall im m im',
    Image_convert L im m = Ok im' -> mode im' = m;
  convert_size : forall im m im',
    Image_convert L im m = Ok im' -> size im' = size im;
  resize_size : forall im sz im',
    Image_resize L im sz = Ok im' -> size im' = sz
}.

(** One detection of the model: [box.cls[0]], [box.xyxy[0].tolist()] and
    [box.conf[0]]. *)
Record Box : Type := mkBox {
  cls : float;
  xyxy : list float;
  conf : float
}.

(** One element of the model's output; [result.boxes] may be [None]. *)
Record Results : Type := mkResults { boxes : option (list Box) }.

(** The loaded model, as [analyze_face] uses it on the decoded image
    (main.py:220-227): [image_np = np.array(image)] followed by
    [yolo_model(image_np, conf=.., verbose=False)].  [predict] stands for
    the two steps together.  Either may raise: the conversion to an array
    is where Pillow loads the pixels of an image that [Image.open] only
    opened, and the inference is the model's own.  [array_then_infer]
    below builds a [predict] from the two steps. *)
Record YOLO : Type := mkYOLO {
  predict : Image -> float -> Res (list Results)
}.

(** ** Configuration (module level constants of main.py) *)

Record Config : Type := mkConfig {
  MODEL_PATH : string;
  CONFIDENCE_THRESHOLD : float;
  MAX_IMAGE_SIZE : Z
}.

(** The values used when the environment sets nothing. *)
Definition default_config : Config :=
  {| MODEL_PATH := "yolov8n-face.pt";
     CONFIDENCE_THRESHOLD := PyFloat.f0_5;
     MAX_IMAGE_SIZE := 1280 |}.

(** ** Startup: [lifespan]

    [construct] is the outcome of [YOLO(MODEL_PATH)], [warmup] the outcome
    of the dummy inference.  The global [yolo_model] starts as [None] and is
    assigned as soon as the constructor returns; an exception of either call
    is logged and swallowed. *)
Definition lifespan_startup (construct : Res YOLO)
    (warmup : YOLO -> Res unit) : option YOLO :=
  match construct with
  | Ok m =>
      match warmup m with
      | Ok _ => Some m
      | Raise _ => Some m
      end
  | Raise _ => None
  end.

(** ** Response models *)

Record AnalyzeResponse : Type := mkAnalyzeResponse {
  success : bool;
  face_count : Z;
  confidence : float;
  looking_away : bool;
  processing_time_ms : float;
  bounding_boxes : option (list (list float));
  error : option string
}.

Record HealthResponse : Type := mkHealthResponse {
  status : string;
  model_loaded : bool;
  model_path : string;
  model_type : string;
  confidence_threshold : float
}.

(** What the framework sends back: the returned model with status 200, or
    the status and detail of a raised [HTTPException]. *)
Inductive HttpResponse : Type :=
  | Http200 (body : AnalyzeResponse)
  | HttpError (status_code : Z) (detail : string).

(** ** Helper functions *)

(** The [try] block of [decode_base64_image]. *)
Definition decode_try (L : Libs) (cfg : Config) (base64_string : string)
  : Res Image :=
  image_data <- b64decode L base64_string ;;
  image <- Image_open L image_data ;;
  image <- (if String.eqb (mode image) "RGB" then Ok image
            else Image_convert L image "RGB") ;;
  let longest := Z.max (width image) (height image) in
  if MAX_IMAGE_SIZE cfg <? longest then
    ratio <- PyFloat.int_truediv (MAX_IMAGE_SIZE cfg) longest ;;
    new_w <- PyFloat.to_int (PrimFloat.mul (PyFloat.of_int (width image)) ratio) ;;
    new_h <- PyFloat.to_int (PrimFloat.mul (PyFloat.of_int (height image)) ratio) ;;
    Image_resize L image (new_w, new_h)
  else Ok image.

Definition decode_base64_image (L : Libs) (cfg : Config)
    (base64_string : string) : Res Image :=
  base64_string <-
    (if PyStr.contains_char ","%char base64_string
     then PyStr.index (PyStr.split ","%char base64_string) 1
     else Ok base64_string) ;;
  match decode_try L cfg base64_string with
  | Ok image => Ok image
  | Raise e => Raise (mkExc ValueError ("Invalid image data: " ++ str e)%string)
  end.

Definition unpack_message (got : nat) : string :=
  match got with
  | O => "not enough values to unpack (expected 4, got 0)"
  | 1%nat => "not enough values to unpack (expected 4, got 1)"
  | 2%nat => "not enough values to unpack (expected 4, got 2)"
  | _ => "not enough values to unpack (expected 4, got 3)"
  end.

Definition estimate_looking_away (boxes : list (list float))
    (image_width : Z) : Res bool :=
  match boxes with
  | [] => Ok false
  | main_box :: _ =>
      match firstn 4 main_box with
      | [x1; y1; x2; y2] =>
          let face_center_x := PrimFloat.div (PrimFloat.add x1 x2) PyFloat.f2 in
          image_center_x <- PyFloat.int_truediv image_width 2 ;;
          deviation_ratio <-
            PyFloat.truediv
              (PrimFloat.abs (PrimFloat.sub face_center_x image_center_x))
              image_center_x ;;
          Ok (PyFloat.gt deviation_ratio PyFloat.f0_4)
      | short =>
          Raise (mkExc ValueError (unpack_message (List.length short)))
      end
  end.

(** ** Endpoints *)

(** [GET /health].  A model object is truthy, [None] is not. *)
Definition health_check (cfg : Config) (yolo_model : option YOLO)
  : HealthResponse :=
  {| status := match yolo_model with
               | Some _ => "healthy"
               | None => "degraded"
               end;
     model_loaded := match yolo_model with
                     | Some _ => true
                     | None => false
                     end;
     model_path := MODEL_PATH cfg;
     model_type := "yolov8-face";
     confidence_threshold := CONFIDENCE_THRESHOLD cfg |}.

(** The two nested loops of [analyze_face] that keep the detections of
    class 0; [acc] holds the lists [boxes] and [confidences] built so far. *)
Fixpoint collect_boxes (bs : list Box)
    (acc : list (list float) * list float)
  : Res (list (list float) * list float) :=
  match bs with
  | [] => Ok acc
  | box :: rest =>
      c <- PyFloat.to_int (cls box) ;;
      collect_boxes rest
        (if Z.eqb c 0
         then (fst acc ++ [xyxy box], snd acc ++ [conf box])
         else acc)
  end.

Fixpoint collect_results (results : list Results)
    (acc : list (list float) * list float)
  : Res (list (list float) * list float) :=
  match results with
  | [] => Ok acc
  | result :: rest =>
      acc' <- match boxes result with
              | Some bs => collect_boxes bs acc
              | None => Ok acc
              end ;;
      collect_results rest acc'
  end.

(** [(time.time() - start_time) * 1000] *)
Definition elapsed_ms (start_time now : float) : float :=
  PrimFloat.mul (PrimFloat.sub now start_time) PyFloat.f1000.

(** The metrics computed from the kept detections. *)
Definition compose (boxes : list (list float)) (confidences : list float)
    (image : Image) (start_time now : float) : Res AnalyzeResponse :=
  let face_count := Z.of_nat (List.length boxes) in
  confidence <- match confidences with
                | [] => Ok PyFloat.f0
                | _ => PyFloat.max confidences
                end ;;
  looking_away <- (if Z.eqb face_count 1
                   then estimate_looking_away boxes (width image)
                   else Ok false) ;;
  Ok {| success := true;
        face_count := face_count;
        confidence := confidence;
        looking_away := looking_away;
        processing_time_ms := elapsed_ms start_time now;
        bounding_boxes := Some boxes;
        error := None |}.

(** The [try] block of [analyze_face] after the image is decoded: the
    conversion to an array and the inference (both in [predict]), the
    extraction of the detections and the metrics. *)
Definition infer_and_compose (cfg : Config) (model : YOLO) (image : Image)
    (start_time now : float) : Res AnalyzeResponse :=
  results <- predict model image (CONFIDENCE_THRESHOLD cfg) ;;
  found <- collect_results results ([], []) ;;
  compose (fst found) (snd found) image start_time now.

(** The [try] block of [analyze_face]. *)
Definition analyze_try (L : Libs) (cfg : Config) (model : YOLO)
    (image_b64 : string) (start_time now : float) : Res AnalyzeResponse :=
  image <- decode_base64_image L cfg image_b64 ;;
  infer_and_compose cfg model image start_time now.

Definition mock_response (start_time now : float) : AnalyzeResponse :=
  {| success := true;
     face_count := 1;
     confidence := PyFloat.f0_95;
     looking_away := false;
     processing_time_ms := elapsed_ms start_time now;
     bounding_boxes := None;
     error := Some "Model not loaded - mock response" |}.

(** [POST /analyze] with body [{"image": image_b64}]; [start_time] and
    [now] are the two readings of the clock. *)
Definition analyze_face (L : Libs) (cfg : Config) (yolo_model : option YOLO)
    (image_b64 : string) (start_time now : float) : HttpResponse :=
  match yolo_model with
  | None => Http200 (mock_response start_time now)
  | Some model =>
      match analyze_try L cfg model image_b64 start_time now with
      | Ok response => Http200 response
      | Raise e =>
          if isinstance_ValueError e
          then HttpError 400 (str e)
          else HttpError 500 (str e)
      end
  end.

(** ** The specification's vocabulary

    The definitions below follow the words of the specification; the
    theorems compare them with the functions above. *)

(** Every box the model reported, over all results. *)
Definition all_boxes (results : list Results) : list Box :=
  flat_map (fun r => match boxes r with Some bs => bs | None => [] end) results.

(** The class filter: the class id, read as an integer, is 0. *)
Definition passes_class_filter (b : Box) : bool :=
  match PyFloat.to_int (cls b) with
  | Ok c => c =? 0
  | Raise _ => false
  end.

(** The detections of a request: the boxes that pass the class filter. *)
Definition detections (results : list Results) : list Box :=
  filter passes_class_filter (all_boxes results).

(** The deviation of the box centre from the image centre, relative to the
    half width, in binary64 arithmetic. *)
Definition deviation_ratio (x1 x2 : float) (image_width : Z) : float :=
  let half_width := PrimFloat.div (PyFloat.of_int image_width) 2%float in
  PrimFloat.div
    (PrimFloat.abs
       (PrimFloat.sub (PrimFloat.div (PrimFloat.add x1 x2) 2%float) half_width))
    half_width.

(** [m] is a maximum of the list [l] for the order of binary64. *)
Definition is_maximum (m : float) (l : list float) : Prop :=
  In m l /\ forall c, In c l -> PrimFloat.leb c m = true.

(** ** A small instance of the libraries, for concrete runs

    The text is taken byte for byte, the first four bytes of the data are
    the width and the height (big endian), the rest the pixels.  [resize]
    refuses an empty target, as Pillow does. *)
Module Sample.

Definition text_bytes (s : string) : Res (list byte) :=
  if PyStr.contains_char "!"%char s
  then Raise (mkExc ValueError "Incorrect padding")
  else Ok (list_byte_of_string s).

Definition open_header (data : list byte) : Res Image :=
  match data with
  | w1 :: w0 :: h1 :: h0 :: rest =>
      Ok {| mode := "L";
            width := Z.of_N (Byte.to_N w1) * 256 + Z.of_N (Byte.to_N w0);
            height := Z.of_N (Byte.to_N h1) * 256 + Z.of_N (Byte.to_N h0);
            pixels := rest |}
  | _ => Raise (mkExc (OtherException "UnidentifiedImageError")
                  "cannot identify image file")
  end.

Definition set_mode (im : Image) (m : string) : Res Image :=
  Ok {| mode := m; width := width im; height := height im;
        pixels := pixels im |}.

Definition set_size (im : Image) (sz : Z * Z) : Res Image :=
  if (fst sz <? 1) || (snd sz <? 1)
  then Raise (mkExc ValueError "height and width must be > 0")
  else Ok {| mode := mode im; width := fst sz; height := snd sz;
             pixels := pixels im |}.

Definition libs : Libs :=
  {| b64decode := text_bytes;
     Image_open := open_header;
     Image_convert := set_mode;
     Image_resize := set_size |}.

(** A model that reports the given boxes for every image. *)
Definition model_of (bs : list Box) : YOLO :=
  {| predict := fun _ _ => Ok [ {| boxes := Some bs |} ] |}.

(** A model whose inference raises. *)
Definition failing_model (e : PyExc) : YOLO :=
  {| predict := fun _ _ => Raise e |}.

(** A person near the right border, one in the middle, and a box of
    another class. *)
Definition box_right : Box :=
  {| cls := 0%float; xyxy := [500; 100; 620; 300]%float;
     conf := 0.75%float |}.
Definition box_middle : Box :=
  {| cls := 0%float; xyxy := [300; 100; 340; 300]%float;
     conf := 0.875%float |}.
Definition box_other : Box :=
  {| cls := 16%float; xyxy := [0; 0; 10; 10]%float; conf := 0.9375%float |}.

(** A 640 x 480 image and a 3000 x 1000 image, as request texts. *)
Definition image_640x480 : string :=
  String (ascii_of_nat 2) (String (ascii_of_nat 128)
    (String (ascii_of_nat 1) (String (ascii_of_nat 224) "pixels"))).
Definition image_3000x1000 : string :=
  String (ascii_of_nat 11) (String (ascii_of_nat 184)
    (String (ascii_of_nat 3) (String (ascii_of_nat 232) "pixels"))).

End Sample.

(** ** The proctoring client (test_real_face.py)

    [analyze_face(image)] posts the frame and [display_results(result)]
    prints the report.  What is printed is modelled by the choices the
    code makes: the label of each section and the list of violations. *)

Module Client.

(** What [requests.post] gave: a response of the service, or an
    exception ([ConnectionError] or any other). *)
Inductive PostOutcome : Type :=
  | Responded (response : HttpResponse)
  | PostRaised (e : PyExc).

(** [analyze_face(image)], from the outcome of the request on: the parsed
    body for status 200, [None] for every other status and for every
    exception. *)
Definition analyze_face (outcome : PostOutcome) : option AnalyzeResponse :=
  match outcome with
  | Responded (Http200 body) => Some body
  | Responded (HttpError _ _) => None
  | PostRaised _ => None
  end.

Inductive FaceStatus : Type := NoFaceDetected | SingleFace | MultipleFaces.
Inductive Quality : Type := Excellent | Good | Poor.
Inductive Performance : Type := Fast | Acceptable | Slow.

(** The sections of the report: the face count status and whether the
    line "Violation: HIGH SEVERITY" follows it, the confidence quality,
    whether "Violation: MEDIUM SEVERITY" follows the looking-away line, the
    performance label, and the violations of the verdict. *)
Record Report : Type := mkReport {
  face_status : FaceStatus;
  face_violation : bool;
  quality : Quality;
  head_pose_violation : bool;
  performance : Performance;
  violations : list string
}.

(** What [display_results] shows: the failure line with the error of the
    result, or the report. *)
Inductive Shown : Type :=
  | ShownFailure (error : option string)
  | ShownReport (report : Report).

Definition f0_8 : float := 0x1.999999999999ap-1%float.   (* 0.8 *)

(** The list [violations] of the verdict. *)
Definition verdict (face_count : Z) (looking_away : bool) : list string :=
  let violations := [] in
  let violations :=
    if face_count =? 0 then violations ++ ["NO_FACE_DETECTED (HIGH)"]
    else if 1 <? face_count then violations ++ ["MULTIPLE_FACES (HIGH)"]
    else violations in
  if (face_count =? 1) && looking_away
  then violations ++ ["LOOKING_AWAY (MEDIUM)"]
  else violations.

Definition display_results (result : AnalyzeResponse) : Shown :=
  if negb (success result) then ShownFailure (error result)
  else
    let face_count := face_count result in
    let confidence := confidence result in
    let looking_away := looking_away result in
    let processing_time := processing_time_ms result in
    ShownReport
      {| face_status := if face_count =? 0 then NoFaceDetected
                        else if face_count =? 1 then SingleFace
                        else MultipleFaces;
         face_violation := if face_count =? 0 then true
                           else if face_count =? 1 then false
                           else true;
         quality := if PyFloat.gt confidence f0_8 then Excellent
                    else if PyFloat.gt confidence PyFloat.f0_5 then Good
                    else Poor;
         head_pose_violation := looking_away;
         performance := if PrimFloat.ltb processing_time 300%float then Fast
                        else if PrimFloat.ltb processing_time 1000%float
                             then Acceptable
                             else Slow;
         violations := verdict face_count looking_away |}.

(** The end of [main]: analyze, then display the result if there is one;
    [None] stands for the line "Analysis failed". *)
Definition main_report (outcome : PostOutcome) : option Shown :=
  match analyze_face outcome with
  | Some result => Some (display_results result)
  | None => None
  end.

End Client.

(** ** Further vocabulary *)

(** The class id of the box converts to an integer: it is neither NaN nor
    infinite. *)
Definition class_id_finite (b : Box) : Prop :=
  exists c, PyFloat.to_int (cls b) = Ok c.

(** [predict] spelled out in its two steps: [np.array(image)], then the
    call of the model on the array. *)
Definition array_then_infer (np_array : Image -> Res Image)
    (infer : Image -> float -> Res (list Results)) : YOLO :=
  {| predict := fun image conf =>
                  image_np <- np_array image ;; infer image_np conf |}.

(** Loading the pixels for the sample library: an image without pixel
    data is a truncated file. *)
Definition load_pixels (im : Image) : Res Image :=
  match pixels im with
  | [] => Raise (mkExc (OtherException "OSError") "image file is truncated")
  | _ => Ok im
  end.

(** A 640 x 480 header with no pixel data behind it, as request text. *)
Definition image_truncated : string :=
  String (ascii_of_nat 2) (String (ascii_of_nat 128)
    (String (ascii_of_nat 1) (String (ascii_of_nat 224) EmptyString))).


(** ** The real value of binary64 numbers

    Used to state what the rounded operations compute. *)

(** 2 to the power [e], as a real. *)
Definition bpow (e : Z) : R := powerRZ 2 e.

(** [located x m l]: the real [x] lies in [[m, m+1)] at the place the
    rounding information [l] says: on [m], below, on or above the middle. *)
Definition located (x : R) (m : Z) (l : location) : Prop :=
  match l with
  | loc_Exact => x = IZR m
  | loc_Inexact Lt => (IZR m < x < IZR m + / 2)%R
  | loc_Inexact Eq => x = (IZR m + / 2)%R
  | loc_Inexact Gt => (IZR m + / 2 < x < IZR m + 1)%R
  end.

(** [normal x v]: [x] is a positive normal binary64 number, of value [v]. *)
Definition normal (x : spec_float) (v : R) : Prop :=
  exists m e,
    x = S754_finite false m e /\
    2 ^ 52 <= Zpos m < 2 ^ 53 /\
    -1074 <= e <= 971 /\
    v = (IZR (Zpos m) * bpow e)%R.

(** * Properties *)

(** ** Results and exceptions *)

Lemma bind_Ok {A B : Type} (m : Res A) (k : A -> Res B) (b : B) :
  bind m k = Ok b -> exists a, m = Ok a /\ k a = Ok b.
Proof.
  destruct m as [a|e]; simpl; intros H.
  - exists a; split; [reflexivity | exact H].
  - discriminate H.
Qed.

Lemma bind_Raise {A B : Type} (m : Res A) (k : A -> Res B) (e : PyExc) :
  bind m k = Raise e -> m = Raise e \/ exists a, m = Ok a /\ k a = Raise e.
Proof.
  destruct m as [a|e']; simpl; intros H.
  - right; exists a; split; [reflexivity | exact H].
  - left; injection H as ->; reflexivity.
Qed.

Ltac inv_bind H :=
  let a := fresh "v" in
  let Ha := fresh "Hv" in
  apply bind_Ok in H; destruct H as (a & Ha & H).

(** ** Text: the data-URL prefix *)

Lemma contains_char_app (c : ascii) (s t : string) :
  PyStr.contains_char c (s ++ t)%string
  = PyStr.contains_char c s || PyStr.contains_char c t.
Proof.
  induction s as [|d s IH]; simpl.
  - reflexivity.
  - destruct (Ascii.eqb d c); [reflexivity | exact IH].
Qed.

(** A text without the separator is a single piece. *)
Lemma split_without_sep (c : ascii) (s : string) :
  PyStr.contains_char c s = false -> PyStr.split c s = [s].
Proof.
  induction s as [|d s IH]; simpl; intros H.
  - reflexivity.
  - destruct (Ascii.eqb d c); [discriminate H|].
    rewrite (IH H). reflexivity.
Qed.

(** A separator-free prefix, the separator and a separator-free body split
    into exactly these two pieces. *)
Lemma split_prefix_body (c : ascii) (p b : string) :
  PyStr.contains_char c p = false ->
  PyStr.contains_char c b = false ->
  PyStr.split c (p ++ String c b)%string = [p; b].
Proof.
  intros Hp Hb. induction p as [|d p IH]; simpl in *.
  - rewrite Ascii.eqb_refl, (split_without_sep c b Hb). reflexivity.
  - destruct (Ascii.eqb d c); [discriminate Hp|].
    rewrite (IH Hp). reflexivity.
Qed.

(** When the separator occurs, [split] returns at least two pieces, so the
    index 1 of [decode_base64_image] is in range. *)
Lemma split_with_sep (c : ascii) (s : string) :
  PyStr.contains_char c s = true ->
  exists p q rest, PyStr.split c s = p :: q :: rest.
Proof.
  induction s as [|d s IH]; simpl; intros H.
  - discriminate H.
  - destruct (Ascii.eqb d c).
    + destruct s as [|d' s']; simpl.
      * exists EmptyString, EmptyString, []. reflexivity.
      * destruct (Ascii.eqb d' c).
        -- eexists _, _, _. reflexivity.
        -- destruct (PyStr.split c s') as [|q rest] eqn:E;
             eexists _, _, _; reflexivity.
    + destruct (IH H) as (p & q & rest & E). rewrite E.
      eexists _, _, _. reflexivity.
Qed.

Lemma digit_not_comma (n : N) : Base64.digit n <> ","%char.
Proof.
  unfold Base64.digit.
  generalize (N.to_nat n) as k. intros k.
  do 65 (destruct k as [|k]; [discriminate|]).
  discriminate.
Qed.

(** The base64 text of any data holds no comma. *)
Lemma b64encode_no_comma (data : list byte) :
  PyStr.contains_char ","%char (Base64.b64encode data) = false.
Proof.
  assert (D : forall n, Ascii.eqb (Base64.digit n) ","%char = false).
  { intros n. apply Ascii.eqb_neq, digit_not_comma. }
  assert (G : forall n (bs : list byte),
             (List.length bs <= n)%nat ->
             PyStr.contains_char ","%char (Base64.b64encode bs) = false).
  { induction n as [|n IH]; intros bs Hn.
    - destruct bs; [reflexivity | simpl in Hn; lia].
    - destruct bs as [|a [|b [|c rest]]]; simpl; rewrite ?D; try reflexivity.
      apply IH. simpl in Hn. lia. }
  apply (G (List.length data)). lia.
Qed.

(** Every failure of [decode_base64_image] is a [ValueError] whose message
    starts with the fixed text. *)
Lemma decode_base64_image_Raise (L : Libs) (cfg : Config) (s : string)
    (e : PyExc) :
  decode_base64_image L cfg s = Raise e ->
  exc_class e = ValueError /\
  exists cause, str e = ("Invalid image data: " ++ cause)%string.
Proof.
  unfold decode_base64_image. intros H.
  destruct (PyStr.contains_char ","%char s) eqn:C.
  - destruct (split_with_sep _ _ C) as (p & q & rest & E).
    rewrite E in H. simpl in H.
    destruct (decode_try L cfg q) as [im|e']; [discriminate H|].
    injection H as <-. split; [reflexivity|]. exists (str e'). reflexivity.
  - simpl in H.
    destruct (decode_try L cfg s) as [im|e']; [discriminate H|].
    injection H as <-. split; [reflexivity|]. exists (str e'). reflexivity.
Qed.

Lemma contains_prefixed (needle rest : string) :
  PyStr.contains needle (needle ++ rest)%string = true.
Proof.
  assert (P : String.prefix needle (needle ++ rest)%string = true).
  { induction needle as [|c n IH]; simpl.
    - destruct rest; reflexivity.
    - destruct (ascii_dec c c) as [_|N]; [exact IH | now elim N]. }
  revert P. destruct (needle ++ rest)%string; intros P;
    cbn [PyStr.contains]; rewrite P; reflexivity.
Qed.

(** ** The order of binary64

    Comparisons of primitive floats are those of their specification,
    [SFcompare]; the facts below are what [max] and the threshold test
    need. *)

Lemma SFcompare_swap (x y : spec_float) :
  SFcompare y x = option_map CompOpp (SFcompare x y).
Proof.
  destruct x as [sx|sx| |sx mx ex], y as [sy|sy| |sy my ey]; simpl;
    try reflexivity;
    try (destruct sx; reflexivity); try (destruct sy; reflexivity);
    try (destruct sx, sy; reflexivity).
  destruct sx, sy; simpl; try reflexivity;
    rewrite (Z.compare_antisym ey ex);
    destruct (ey ?= ex) eqn:E; simpl; try reflexivity;
    rewrite !Pos.compare_cont_spec; simpl;
    rewrite (Pos.compare_antisym my mx);
    destruct (my ?= mx)%positive; reflexivity.
Qed.

Lemma SFleb_trans (x y z : spec_float) :
  SFleb x y = true -> SFleb y z = true -> SFleb x z = true.
Proof.
  unfold SFleb.
  destruct x as [sx|sx| |sx mx ex], y as [sy|sy| |sy my ey],
           z as [sz|sz| |sz mz ez]; simpl;
    try discriminate; try reflexivity;
    try (destruct sx; simpl; try discriminate; try reflexivity);
    try (destruct sy; simpl; try discriminate; try reflexivity);
    try (destruct sz; simpl; try discriminate; try reflexivity).
  all: rewrite ?Pos.compare_cont_spec; simpl.
  all: destruct (Z.compare_spec ex ey); destruct (Z.compare_spec ey ez);
    destruct (Z.compare_spec ex ez);
    try discriminate; try reflexivity; try lia; subst.
  all: destruct (Pos.compare_spec mx my); destruct (Pos.compare_spec my mz);
    destruct (Pos.compare_spec mx mz);
    simpl; try discriminate; try reflexivity; try lia.
Qed.

Lemma SFcompare_refl (x : spec_float) :
  x <> S754_nan -> SFcompare x x = Some Eq.
Proof.
  destruct x as [s|s| |s m e]; simpl; intros H;
    try reflexivity; try (destruct s; reflexivity); try (now elim H).
  rewrite Z.compare_refl, Pos.compare_cont_refl. destruct s; reflexivity.
Qed.

Lemma SFcompare_total (x y : spec_float) :
  x <> S754_nan -> y <> S754_nan -> SFcompare x y <> None.
Proof.
  destruct x as [sx|sx| |sx mx ex], y as [sy|sy| |sy my ey]; simpl;
    intros Hx Hy; try discriminate; try (now elim Hx); now elim Hy.
Qed.

Lemma Prim2SF_not_nan (x : float) :
  PrimFloat.is_nan x = false -> Prim2SF x <> S754_nan.
Proof.
  unfold Prim2SF. intros ->.
  destruct (PrimFloat.is_zero x); [discriminate|].
  destruct (PrimFloat.is_infinity x); [discriminate|].
  destruct (Z.frexp x) as [r ex].
  destruct (shr_fexp _ _ _ _ _) as [shr e'].
  destruct (shr_m shr); discriminate.
Qed.

Module FloatOrder.

Lemma leb_refl (x : float) :
  PrimFloat.is_nan x = false -> PrimFloat.leb x x = true.
Proof.
  intros H. rewrite FloatAxioms.leb_spec. unfold SFleb.
  rewrite (SFcompare_refl _ (Prim2SF_not_nan _ H)). reflexivity.
Qed.

Lemma leb_trans (x y z : float) :
  PrimFloat.leb x y = true -> PrimFloat.leb y z = true ->
  PrimFloat.leb x z = true.
Proof. rewrite !FloatAxioms.leb_spec. apply SFleb_trans. Qed.

Lemma ltb_leb (x y : float) :
  PrimFloat.ltb x y = true -> PrimFloat.leb x y = true.
Proof.
  rewrite FloatAxioms.ltb_spec, FloatAxioms.leb_spec. unfold SFltb, SFleb.
  destruct (SFcompare _ _) as [[ | | ]|]; congruence.
Qed.

(** [x <= y] excludes [x > y]. *)
Lemma leb_not_gt (x y : float) :
  PrimFloat.leb x y = true -> PyFloat.gt x y = false.
Proof.
  unfold PyFloat.gt. rewrite FloatAxioms.ltb_spec, FloatAxioms.leb_spec. unfold SFltb, SFleb.
  rewrite (SFcompare_swap (Prim2SF x) (Prim2SF y)).
  destruct (SFcompare _ _) as [[ | | ]|]; simpl; congruence.
Qed.

(** Without NaN the order is total: not [x > y] means [x <= y]. *)
Lemma not_gt_leb (x y : float) :
  PrimFloat.is_nan x = false -> PrimFloat.is_nan y = false ->
  PyFloat.gt x y = false -> PrimFloat.leb x y = true.
Proof.
  intros Hx Hy. unfold PyFloat.gt. rewrite FloatAxioms.ltb_spec, FloatAxioms.leb_spec.
  unfold SFltb, SFleb.
  rewrite (SFcompare_swap (Prim2SF x) (Prim2SF y)).
  pose proof (SFcompare_total _ _ (Prim2SF_not_nan _ Hx)
                (Prim2SF_not_nan _ Hy)) as T.
  destruct (SFcompare _ _) as [[ | | ]|]; simpl; congruence.
Qed.

End FloatOrder.

(** [max] of Python on a list without NaN returns a maximum of the list. *)
Lemma max_from_is_maximum (rest : list float) (first : float) :
  PrimFloat.is_nan first = false ->
  Forall (fun c => PrimFloat.is_nan c = false) rest ->
  let m := PyFloat.max_from first rest in
  PrimFloat.is_nan m = false /\
  In m (first :: rest) /\
  forall c, In c (first :: rest) -> PrimFloat.leb c m = true.
Proof.
  unfold PyFloat.max_from.
  revert first. induction rest as [|x rest IH]; intros first Hf Hr; simpl.
  - split; [exact Hf|]. split; [left; reflexivity|].
    intros c [<-|[]]. apply FloatOrder.leb_refl, Hf.
  - inversion Hr as [|? ? Hx Hrest]; subst.
    destruct (PyFloat.gt x first) eqn:G.
    + destruct (IH x Hx Hrest) as (Hn & Hin & Hmax).
      split; [exact Hn|]. split.
      * simpl in Hin. destruct Hin as [E|Hin]; [right; left; exact E|].
        right; right; exact Hin.
      * intros c [<-|[<-|Hc]].
        -- apply FloatOrder.leb_trans with x.
           ++ apply FloatOrder.ltb_leb. exact G.
           ++ apply Hmax. left; reflexivity.
        -- apply Hmax. left; reflexivity.
        -- apply Hmax. right; exact Hc.
    + destruct (IH first Hf Hrest) as (Hn & Hin & Hmax).
      split; [exact Hn|]. split.
      * simpl in Hin. destruct Hin as [E|Hin]; [left; exact E|].
        right; right; exact Hin.
      * intros c [<-|[<-|Hc]].
        -- apply Hmax. left; reflexivity.
        -- apply FloatOrder.leb_trans with first.
           ++ apply FloatOrder.not_gt_leb; assumption.
           ++ apply Hmax. left; reflexivity.
        -- apply Hmax. right; exact Hc.
Qed.

(** ** Rounding in binary64

    The operations of [SpecFloat] on positive normal numbers: the result
    is within a relative error of 2^-53 of the exact one. *)

Lemma bpow_pos e : (0 < bpow e)%R.
Proof. apply powerRZ_lt. lra. Qed.

Lemma bpow_add a b : bpow (a + b) = (bpow a * bpow b)%R.
Proof. apply powerRZ_add. lra. Qed.

Lemma bpow_IZR k : 0 <= k -> bpow k = IZR (2 ^ k).
Proof.
  intros H. unfold bpow. rewrite <- (Z2Nat.id k H) at 1.
  rewrite <- pow_powerRZ. rewrite pow_IZR. rewrite Z2Nat.id by exact H. reflexivity.
Qed.

Lemma bpow_opp e : bpow (- e) = (/ bpow e)%R.
Proof.
  pose proof (bpow_pos e) as P. pose proof (bpow_add (- e) e) as A.
  replace (- e + e) with 0 in A by lia. change (bpow 0) with 1%R in A.
  apply (Rmult_eq_reg_r (bpow e)); [|lra]. rewrite <- A. field. lra.
Qed.

(** The number of binary digits of a positive integer. *)
Lemma digits2_pos_bounds (p : positive) :
  2 ^ (Zpos (digits2_pos p) - 1) <= Zpos p < 2 ^ Zpos (digits2_pos p).
Proof.
  induction p as [p IH|p IH|]; simpl digits2_pos.
  - rewrite Pos2Z.inj_succ.
    replace (Z.succ (Zpos (digits2_pos p)) - 1) with (Z.succ (Zpos (digits2_pos p) - 1)) by lia.
    rewrite !Z.pow_succ_r by lia. lia.
  - rewrite Pos2Z.inj_succ.
    replace (Z.succ (Zpos (digits2_pos p)) - 1) with (Z.succ (Zpos (digits2_pos p) - 1)) by lia.
    rewrite !Z.pow_succ_r by lia. lia.
  - simpl. lia.
Qed.

Lemma digits2_pos_unique (p : positive) (d : Z) :
  2 ^ (d - 1) <= Zpos p < 2 ^ d -> Zpos (digits2_pos p) = d.
Proof.
  intros [Hl Hu]. pose proof (digits2_pos_bounds p) as [Bl Bu].
  assert (0 < d).
  { destruct (Z.ltb_spec 0 d); [assumption|].
    assert (2 ^ d <= 2 ^ 0) by (destruct (Z.eq_dec d 0); [subst; lia | rewrite Z.pow_neg_r by lia; simpl; lia]).
    simpl in *. lia. }
  set (k := Zpos (digits2_pos p)) in *.
  destruct (Z.lt_trichotomy k d) as [L|[E|G]]; [|exact E|].
  - assert (2 ^ k <= 2 ^ (d - 1)) by (apply Z.pow_le_mono_r; lia). lia.
  - assert (2 ^ d <= 2 ^ (k - 1)) by (apply Z.pow_le_mono_r; lia). lia.
Qed.

Lemma located_bounds x m l : located x m l -> (IZR m <= x < IZR m + 1)%R.
Proof. destruct l as [|[ | | ]]; simpl; lra. Qed.

(** Shifting the integer part right by one bit halves the located real. *)
Lemma shr_1_located (x : R) (mrs : shr_record) :
  0 <= shr_m mrs ->
  located x (shr_m mrs) (loc_of_shr_record mrs) ->
  0 <= shr_m (shr_1 mrs) /\
  located (x / 2) (shr_m (shr_1 mrs)) (loc_of_shr_record (shr_1 mrs)).
Proof.
  destruct mrs as [m r s]. simpl shr_m. intros Hm H.
  destruct m as [|p|p]; [| |lia].
  - destruct r, s; cbv [located loc_of_shr_record shr_1 shr_m orb] in *;
      split; try lia; lra.
  - destruct p as [p|p|].
    + assert (E : IZR (Zpos p~1) = (2 * IZR (Zpos p) + 1)%R)
        by (change (Zpos p~1) with (2 * Zpos p + 1);
            rewrite plus_IZR, mult_IZR; reflexivity).
      destruct r, s; cbv [located loc_of_shr_record shr_1 shr_m orb] in *;
        rewrite E in H; split; try lia; lra.
    + assert (E : IZR (Zpos p~0) = (2 * IZR (Zpos p))%R)
        by (change (Zpos p~0) with (2 * Zpos p); rewrite mult_IZR;
            reflexivity).
      destruct r, s; cbv [located loc_of_shr_record shr_1 shr_m orb] in *;
        rewrite E in H; split; try lia; lra.
    + destruct r, s; cbv [located loc_of_shr_record shr_1 shr_m orb] in *;
        split; try lia; lra.
Qed.

Lemma iter_shr_1_located (n : positive) :
  forall (x : R) (mrs : shr_record),
  0 <= shr_m mrs ->
  located x (shr_m mrs) (loc_of_shr_record mrs) ->
  0 <= shr_m (SpecFloat.iter_pos shr_1 n mrs) /\
  located (x / bpow (Zpos n)) (shr_m (SpecFloat.iter_pos shr_1 n mrs))
    (loc_of_shr_record (SpecFloat.iter_pos shr_1 n mrs)).
Proof.
  induction n as [n IH|n IH|]; intros x mrs Hm H; simpl SpecFloat.iter_pos.
  - destruct (shr_1_located x mrs Hm H) as (H1 & L1).
    destruct (IH _ _ H1 L1) as (H2 & L2).
    destruct (IH _ _ H2 L2) as (H3 & L3).
    split; [exact H3|].
    replace (x / bpow (Zpos n~1))%R with (x / 2 / bpow (Zpos n) / bpow (Zpos n))%R; [exact L3|].
    replace (Zpos n~1) with (1 + (Zpos n + Zpos n)) by lia.
    rewrite !bpow_add. change (bpow 1) with (2 * 1)%R.
    pose proof (bpow_pos (Zpos n)). field. lra.
  - destruct (IH _ _ Hm H) as (H2 & L2).
    destruct (IH _ _ H2 L2) as (H3 & L3).
    split; [exact H3|].
    replace (x / bpow (Zpos n~0))%R with (x / bpow (Zpos n) / bpow (Zpos n))%R; [exact L3|].
    replace (Zpos n~0) with (Zpos n + Zpos n) by lia.
    rewrite !bpow_add. pose proof (bpow_pos (Zpos n)). field. lra.
  - destruct (shr_1_located x mrs Hm H) as (H1 & L1).
    split; [exact H1|]. change (bpow 1) with (2 * 1)%R.
    replace (x / (2 * 1))%R with (x / 2)%R by field. exact L1.
Qed.

Lemma bpow_lt a b : a < b -> (bpow a < bpow b)%R.
Proof.
  intros H. replace b with (a + (b - a)) by lia. rewrite bpow_add.
  rewrite (bpow_IZR (b - a)) by lia.
  assert (2 ^ 1 <= 2 ^ (b - a)) by (apply Z.pow_le_mono_r; lia).
  assert (2 <= IZR (2 ^ (b - a)))%R by (apply IZR_le; simpl in *; lia).
  pose proof (bpow_pos a). nra.
Qed.

Lemma bpow_le a b : a <= b -> (bpow a <= bpow b)%R.
Proof.
  intros H. destruct (Z.eq_dec a b) as [->|N]; [lra|].
  apply Rlt_le, bpow_lt. lia.
Qed.

Lemma bpow_lt_inv a b : (bpow a < bpow b)%R -> a < b.
Proof.
  intros H. destruct (Z.lt_ge_cases a b) as [L|G]; [exact L|].
  pose proof (bpow_le b a G). lra.
Qed.

Lemma Zdigits2_bounds (m : Z) :
  0 < m -> 2 ^ (Zdigits2 m - 1) <= m < 2 ^ Zdigits2 m.
Proof.
  destruct m as [|p|p]; try lia. intros _. apply digits2_pos_bounds.
Qed.

Lemma Zdigits2_53 (m : Z) : 2 ^ 52 <= m < 2 ^ 53 -> Zdigits2 m = 53.
Proof.
  destruct m as [|p|p]; try lia. intros H. simpl.
  apply digits2_pos_unique. exact H.
Qed.

Lemma Zdigits2_ge_53 (m : Z) : 2 ^ 52 <= m -> 53 <= Zdigits2 m.
Proof.
  intros H. pose proof (Zdigits2_bounds m ltac:(lia)) as [_ B].
  destruct (Z.lt_ge_cases (Zdigits2 m) 53) as [L|G]; [|exact G].
  assert (2 ^ Zdigits2 m <= 2 ^ 52) by (apply Z.pow_le_mono_r; lia). lia.
Qed.

Lemma located_shr_record_of_loc (m : Z) (l : location) :
  shr_m (shr_record_of_loc m l) = m /\
  loc_of_shr_record (shr_record_of_loc m l) = l.
Proof. destruct l as [|[ | | ]]; split; reflexivity. Qed.

(** The integer part of a located real inherits the integer bounds of the
    real. *)
Lemma located_in_range (x : R) (m : Z) (l : location) (a b : Z) :
  located x m l -> (IZR a <= x < IZR b)%R -> a <= m < b.
Proof.
  intros L [Ha Hb]. apply located_bounds in L. destruct L as [L1 L2]. split.
  - assert (IZR a < IZR (m + 1))%R by (rewrite plus_IZR; lra).
    apply lt_IZR in H. lia.
  - apply lt_IZR. lra.
Qed.

Lemma shr_fexp_located (m e : Z) (l : location) (x : R) :
  2 ^ 52 <= m ->
  -1074 <= Zdigits2 m + e - 53 ->
  located x m l ->
  exists mrs,
    shr_fexp prec emax m e l = (mrs, Zdigits2 m + e - 53) /\
    2 ^ 52 <= shr_m mrs < 2 ^ 53 /\
    located (x / bpow (Zdigits2 m - 53)) (shr_m mrs) (loc_of_shr_record mrs).
Proof.
  intros Hm He L.
  pose proof (Zdigits2_ge_53 m Hm) as Hd.
  pose proof (Zdigits2_bounds m ltac:(lia)) as [Bl Bu].
  pose proof (located_bounds _ _ _ L) as [Xl Xu].
  destruct (located_shr_record_of_loc m l) as [Rm Rl].
  unfold shr_fexp, fexp, SpecFloat.emin, prec, emax.
  replace (Z.max (Zdigits2 m + e - 53) (3 - 1024 - 53) - e) with (Zdigits2 m - 53) by lia.
  set (d := Zdigits2 m) in *.
  destruct (d - 53) as [|n|n] eqn:En; [| |lia]; unfold shr.
  - exists (shr_record_of_loc m l). rewrite Rm, Rl.
    split; [f_equal; lia|]. split.
    + assert (d = 53) by lia. replace d with 53 in Bu by lia. lia.
    + change (bpow 0) with 1%R. replace (x / 1)%R with x by field. exact L.
  - destruct (iter_shr_1_located n x (shr_record_of_loc m l)) as (P & Q).
    { rewrite Rm. lia. }
    { rewrite Rm, Rl. exact L. }
    exists (SpecFloat.iter_pos shr_1 n (shr_record_of_loc m l)).
    split; [f_equal; lia|]. split; [|exact Q].
    apply (located_in_range _ _ _ _ _ Q).
    pose proof (bpow_pos (Zpos n)) as Pn.
    assert (E1 : IZR (2 ^ (d - 1)) = (IZR (2 ^ 52) * bpow (Zpos n))%R).
    { rewrite <- !bpow_IZR by lia. rewrite <- bpow_add. f_equal. lia. }
    assert (E2 : IZR (2 ^ d) = (IZR (2 ^ 53) * bpow (Zpos n))%R).
    { rewrite <- !bpow_IZR by lia. rewrite <- bpow_add. f_equal. lia. }
    assert (X1 : (IZR (2 ^ (d - 1)) <= x)%R).
    { apply Rle_trans with (IZR m); [apply IZR_le; lia | exact Xl]. }
    assert (X2 : (x < IZR (2 ^ d))%R).
    { apply Rlt_le_trans with (IZR m + 1)%R; [exact Xu|].
      rewrite <- (plus_IZR m 1). apply IZR_le. lia. }
    rewrite E1 in X1. rewrite E2 in X2. split.
    + apply (Rmult_le_reg_r (bpow (Zpos n))); [exact Pn|].
      replace (x / bpow (Zpos n) * bpow (Zpos n))%R with x by (field; lra).
      exact X1.
    + apply (Rmult_lt_reg_r (bpow (Zpos n))); [exact Pn|].
      replace (x / bpow (Zpos n) * bpow (Zpos n))%R with x by (field; lra).
      exact X2.
Qed.

Lemma round_nearest_even_located (x : R) (m : Z) (l : location) :
  located x m l ->
  m <= round_nearest_even m l <= m + 1 /\
  (Rabs (IZR (round_nearest_even m l) - x) <= / 2)%R.
Proof.
  intros L. destruct l as [|[ | | ]]; simpl in *.
  - split; [lia|]. subst x. replace (IZR m - IZR m)%R with 0%R by ring.
    rewrite Rabs_R0. lra.
  - destruct (Z.even m); split; try lia; subst x; rewrite ?plus_IZR;
      unfold Rabs; destruct (Rcase_abs _); lra.
  - split; [lia|]. unfold Rabs; destruct (Rcase_abs _); lra.
  - split; [lia|]. rewrite plus_IZR. unfold Rabs; destruct (Rcase_abs _); lra.
Qed.

Lemma shr_fexp_53 (m e : Z) :
  2 ^ 52 <= m < 2 ^ 53 -> -1074 <= e ->
  shr_fexp prec emax m e loc_Exact = (Build_shr_record m false false, e).
Proof.
  intros Hm He. unfold shr_fexp, fexp, SpecFloat.emin, prec, emax.
  rewrite (Zdigits2_53 m Hm).
  replace (Z.max (53 + e - 53) (3 - 1024 - 53) - e) with 0 by lia.
  reflexivity.
Qed.

Lemma shr_fexp_carry (e : Z) :
  -1074 <= e ->
  shr_fexp prec emax (2 ^ 53) e loc_Exact
  = (Build_shr_record (2 ^ 52) false false, e + 1).
Proof.
  intros He. unfold shr_fexp, fexp, SpecFloat.emin, prec, emax.
  change (Zdigits2 (2 ^ 53)) with 54.
  replace (Z.max (54 + e - 53) (3 - 1024 - 53) - e) with 1 by lia.
  reflexivity.
Qed.

(** Rounding to nearest even: a value in the normal range, given by its
    integer part [mx] of at least 53 bits and its location, is rounded to a
    normal number within 2^-53 of it, relatively. *)
Theorem binary_round_aux_correct (mx ex : Z) (lx : location) (x : R) :
  2 ^ 52 <= mx ->
  located x mx lx ->
  (bpow (-1022) <= x * bpow ex < bpow 1023)%R ->
  exists v,
    normal (binary_round_aux prec emax false mx ex lx) v /\
    (Rabs (v - x * bpow ex) <= x * bpow ex / IZR (2 ^ 53))%R.
Proof.
  intros Hm L [Vl Vu].
  pose proof (Zdigits2_ge_53 mx Hm) as Hd.
  pose proof (Zdigits2_bounds mx ltac:(lia)) as [Bl Bu].
  pose proof (located_bounds _ _ _ L) as [Xl Xu].
  set (d := Zdigits2 mx) in *.
  pose proof (bpow_pos ex) as Pex.
  (* the exponent of the result is in range *)
  assert (X1 : (bpow (d - 1) <= x)%R).
  { rewrite bpow_IZR by lia.
    apply Rle_trans with (IZR mx); [apply IZR_le; lia | exact Xl]. }
  assert (X2 : (x < bpow d)%R).
  { rewrite bpow_IZR by lia.
    apply Rlt_le_trans with (IZR mx + 1)%R; [exact Xu|].
    rewrite <- (plus_IZR mx 1). apply IZR_le. lia. }
  assert (E1 : -1022 < d + ex).
  { apply bpow_lt_inv. rewrite bpow_add.
    apply Rle_lt_trans with (x * bpow ex)%R; [exact Vl|]. nra. }
  assert (E2 : d - 1 + ex < 1023).
  { apply bpow_lt_inv. rewrite bpow_add.
    apply Rle_lt_trans with (x * bpow ex)%R; [nra | exact Vu]. }
  destruct (shr_fexp_located mx ex lx x Hm ltac:(fold d; lia) L)
    as (mrs & S1 & M1 & L1).
  fold d in S1, L1.
  destruct (round_nearest_even_located _ _ _ L1) as (M2 & A2).
  set (m2 := round_nearest_even (shr_m mrs) (loc_of_shr_record mrs)) in *.
  set (e' := d + ex - 53) in *.
  set (x1 := (x / bpow (d - 53))%R) in *.
  assert (Ev : (x * bpow ex = x1 * bpow e')%R).
  { unfold x1, e'. replace (d + ex - 53) with ((d - 53) + ex) by lia.
    rewrite bpow_add. pose proof (bpow_pos (d - 53)). field. lra. }
  assert (X52 : (IZR (2 ^ 52) <= x1)%R).
  { apply located_bounds in L1. destruct L1 as [L1 _].
    apply Rle_trans with (IZR (shr_m mrs)); [apply IZR_le; lia | exact L1]. }
  pose proof (bpow_pos e') as Pe'.
  assert (Bound : (Rabs (IZR m2 * bpow e' - x * bpow ex)
                   <= x * bpow ex / IZR (2 ^ 53))%R).
  { rewrite Ev.
    replace (IZR m2 * bpow e' - x1 * bpow e')%R
      with ((IZR m2 - x1) * bpow e')%R by ring.
    rewrite Rabs_mult, (Rabs_pos_eq (bpow e')) by lra.
    change (IZR (2 ^ 53)) with 9007199254740992%R.
    change (IZR (2 ^ 52)) with 4503599627370496%R in X52.
    assert (Rabs (IZR m2 - x1) * bpow e' <= / 2 * bpow e')%R
      by (apply Rmult_le_compat_r; lra).
    assert (/ 2 * bpow e' <= x1 * bpow e' / 9007199254740992)%R; [|lra].
    replace (x1 * bpow e' / 9007199254740992)%R
      with ((x1 / 9007199254740992) * bpow e')%R by field.
    apply Rmult_le_compat_r; lra. }
  unfold binary_round_aux. rewrite S1. fold m2.
  destruct (Z.eq_dec m2 (2 ^ 53)) as [C|C].
  - rewrite C, (shr_fexp_carry e') by lia. simpl shr_m.
    change (2 ^ 52) with (Zpos (2 ^ 52)).
    replace (e' + 1 <=? emax - prec) with true
      by (symmetry; apply Z.leb_le; unfold emax, prec; lia).
    exists (IZR m2 * bpow e')%R. split; [|exact Bound].
    exists (2 ^ 52)%positive, (e' + 1). split; [reflexivity|].
    split; [lia|]. split; [lia|].
    rewrite C, bpow_add. change (bpow 1) with (2 * 1)%R.
    change (IZR (2 ^ 53)) with (2 * IZR (Zpos (2 ^ 52)))%R. ring.
  - rewrite (shr_fexp_53 m2 e') by lia. simpl shr_m.
    destruct m2 as [|p|p] eqn:Em2; try lia.
    replace (e' <=? emax - prec) with true
      by (symmetry; apply Z.leb_le; unfold emax, prec; lia).
    exists (IZR (Zpos p) * bpow e')%R. split; [|exact Bound].
    exists p, e'. split; [reflexivity|]. split; [lia|]. split; [lia|].
    reflexivity.
Qed.

Lemma normal_pos (x : spec_float) (v : R) : normal x v -> (0 < v)%R.
Proof.
  intros (m & e & _ & _ & _ & ->).
  apply Rmult_lt_0_compat; [apply IZR_lt; lia | apply bpow_pos].
Qed.

(** The product of two positive normal numbers. *)
Theorem SFmul_correct (x y : spec_float) (vx vy : R) :
  normal x vx -> normal y vy ->
  (bpow (-1022) <= vx * vy < bpow 1023)%R ->
  exists v,
    normal (SFmul prec emax x y) v /\
    (Rabs (v - vx * vy) <= vx * vy / IZR (2 ^ 53))%R.
Proof.
  intros (mx & ex & -> & Mx & Ex & ->) (my & ey & -> & My & Ey & ->) V.
  simpl SFmul.
  assert (E : (IZR (Zpos mx) * bpow ex * (IZR (Zpos my) * bpow ey)
               = IZR (Zpos (mx * my)) * bpow (ex + ey))%R).
  { rewrite Pos2Z.inj_mul, mult_IZR, bpow_add. ring. }
  rewrite E in *.
  apply binary_round_aux_correct.
  - rewrite Pos2Z.inj_mul. change (2 ^ 52) with (1 * 2 ^ 52).
    apply Z.mul_le_mono_nonneg; lia.
  - reflexivity.
  - exact V.
Qed.

(** The location computed by the division: quotient [q], remainder [r]. *)
Lemma new_location_located (q r d : Z) :
  0 < d -> 0 <= r < d ->
  located (IZR q + IZR r / IZR d) q (new_location d r).
Proof.
  intros Hd Hr.
  assert (Dp : (0 < IZR d)%R) by (apply IZR_lt; lia).
  assert (Rp : (0 <= IZR r)%R) by (apply IZR_le; lia).
  unfold new_location, new_location_even, new_location_odd.
  assert (Lt_case : 2 * r < d -> located (IZR q + IZR r / IZR d) q
                      (if r =? 0 then loc_Exact else loc_Inexact Lt)).
  { intros H. destruct (Z.eqb_spec r 0) as [->|N]; simpl.
    - unfold Rdiv. rewrite Rmult_0_l. ring.
    - assert (0 < IZR r)%R by (apply IZR_lt; lia).
      assert (IZR (2 * r) < IZR d)%R by (apply IZR_lt; lia).
      rewrite mult_IZR in *.
      assert (0 < IZR r / IZR d)%R by (apply Rdiv_lt_0_compat; lra).
      assert (IZR r / IZR d < / 2)%R.
      { apply (Rmult_lt_reg_r (IZR d)); [lra|].
        replace (IZR r / IZR d * IZR d)%R with (IZR r) by (field; lra). lra. }
      lra. }
  assert (Gt_case : d < 2 * r -> located (IZR q + IZR r / IZR d) q
                      (if r =? 0 then loc_Exact else loc_Inexact Gt)).
  { intros H. destruct (Z.eqb_spec r 0) as [->|N]; [lia|]. simpl.
    assert (IZR d < IZR (2 * r))%R by (apply IZR_lt; lia).
    assert (IZR r < IZR d)%R by (apply IZR_lt; lia).
    rewrite mult_IZR in *.
    assert (/ 2 < IZR r / IZR d)%R.
    { apply (Rmult_lt_reg_r (IZR d)); [lra|].
      replace (IZR r / IZR d * IZR d)%R with (IZR r) by (field; lra). lra. }
    assert (IZR r / IZR d < 1)%R.
    { apply (Rmult_lt_reg_r (IZR d)); [lra|].
      replace (IZR r / IZR d * IZR d)%R with (IZR r) by (field; lra). lra. }
    lra. }
  assert (Eq_case : d = 2 * r -> located (IZR q + IZR r / IZR d) q
                      (if r =? 0 then loc_Exact else loc_Inexact Eq)).
  { intros H. destruct (Z.eqb_spec r 0) as [->|N]; [lia|]. simpl.
    subst d. rewrite mult_IZR in *. f_equal. field. lra. }
  destruct (Z.even d) eqn:Ev.
  - destruct (Z.compare_spec (2 * r) d) as [C|C|C]; auto.
  - assert (Hodd : d <> 2 * r).
    { intros ->. rewrite Z.even_mul in Ev. discriminate Ev. }
    destruct (Z.compare_spec (2 * r + 1) d) as [C|C|C].
    + apply Lt_case. lia.
    + apply Lt_case. lia.
    + apply Gt_case. lia.
Qed.

(** The quotient of two positive normal numbers. *)
Theorem SFdiv_correct (x y : spec_float) (vx vy : R) :
  normal x vx -> normal y vy ->
  (bpow (-1021) <= vx / vy < bpow 1023)%R ->
  exists v,
    normal (SFdiv prec emax x y) v /\
    (Rabs (v - vx / vy) <= vx / vy / IZR (2 ^ 53))%R.
Proof.
  intros (mx & ex & -> & Mx & Ex & ->) (my & ey & -> & My & Ey & ->) [Vl Vu].
  simpl SFdiv. unfold SFdiv_core_binary.
  assert (Dx : Zdigits2 (Zpos mx) = 53) by (apply Zdigits2_53; lia).
  assert (Dy : Zdigits2 (Zpos my) = 53) by (apply Zdigits2_53; lia).
  rewrite Dx, Dy.
  pose proof (bpow_pos ex) as Pex. pose proof (bpow_pos ey) as Pey.
  assert (Px : (IZR (2 ^ 52) <= IZR (Zpos mx) < IZR (2 ^ 53))%R)
    by (split; [apply IZR_le | apply IZR_lt]; lia).
  assert (Py : (IZR (2 ^ 52) <= IZR (Zpos my) < IZR (2 ^ 53))%R)
    by (split; [apply IZR_le | apply IZR_lt]; lia).
  change (IZR (2 ^ 53)) with 9007199254740992%R in *.
  change (IZR (2 ^ 52)) with 4503599627370496%R in *.
  assert (Ev : (IZR (Zpos mx) * bpow ex / (IZR (Zpos my) * bpow ey)
                = IZR (Zpos mx) / IZR (Zpos my) * bpow (ex - ey))%R).
  { unfold Z.sub. rewrite bpow_add, bpow_opp. field. lra. }
  rewrite Ev in *.
  assert (Rq : (/ 2 < IZR (Zpos mx) / IZR (Zpos my) < 2)%R).
  { split.
    - apply (Rmult_lt_reg_r (IZR (Zpos my))); [lra|].
      replace (IZR (Zpos mx) / IZR (Zpos my) * IZR (Zpos my))%R
        with (IZR (Zpos mx)) by (field; lra). lra.
    - apply (Rmult_lt_reg_r (IZR (Zpos my))); [lra|].
      replace (IZR (Zpos mx) / IZR (Zpos my) * IZR (Zpos my))%R
        with (IZR (Zpos mx)) by (field; lra). lra. }
  assert (E1 : -1021 <= ex - ey).
  { assert (-1021 < ex - ey + 1); [|lia]. apply bpow_lt_inv.
    rewrite bpow_add. change (bpow 1) with (2 * 1)%R.
    pose proof (bpow_pos (ex - ey)). nra. }
  unfold fexp, SpecFloat.emin, prec, emax.
  replace (Z.min (Z.max (53 + ex - (53 + ey) - 53) (3 - 1024 - 53)) (ex - ey))
    with (ex - ey - 53) by lia.
  replace (ex - ey - (ex - ey - 53)) with 53 by lia.
  rewrite Z.shiftl_mul_pow2 by lia.
  pose proof (Z_div_mod (Zpos mx * 2 ^ 53) (Zpos my) ltac:(lia)) as DM.
  destruct (Z.div_eucl (Zpos mx * 2 ^ 53) (Zpos my)) as [q r].
  destruct DM as [DM Hr].
  assert (Hq : (IZR q + IZR r / IZR (Zpos my)
                = IZR (Zpos mx) / IZR (Zpos my) * 9007199254740992)%R).
  { apply (Rmult_eq_reg_r (IZR (Zpos my))); [|lra].
    replace ((IZR q + IZR r / IZR (Zpos my)) * IZR (Zpos my))%R
      with (IZR (Zpos my * q + r))
      by (rewrite plus_IZR, mult_IZR; field; lra).
    rewrite <- DM, mult_IZR. change (IZR (2 ^ 53)) with 9007199254740992%R.
    field. lra. }
  pose proof (new_location_located q r (Zpos my) ltac:(lia) Hr) as L.
  rewrite Hq in L.
  assert (Hq52 : 2 ^ 52 <= q).
  { apply (located_in_range _ _ _ (2 ^ 52) (2 ^ 54)) in L; [lia|].
    change (IZR (2 ^ 52)) with 4503599627370496%R.
    change (IZR (2 ^ 54)) with 18014398509481984%R. lra. }
  assert (Ev2 : (IZR (Zpos mx) / IZR (Zpos my) * bpow (ex - ey)
                 = IZR (Zpos mx) / IZR (Zpos my) * 9007199254740992
                   * bpow (ex - ey - 53))%R).
  { replace (ex - ey) with (53 + (ex - ey - 53)) at 1 by lia.
    rewrite bpow_add, (bpow_IZR 53) by lia.
    change (IZR (2 ^ 53)) with 9007199254740992%R. ring. }
  rewrite Ev2 in *.
  apply binary_round_aux_correct; try assumption.
  split; [|exact Vu].
  apply Rle_trans with (bpow (-1021)); [apply bpow_le; lia | exact Vl].
Qed.

Lemma binary_round_aux_exact (m : positive) (e : Z) :
  2 ^ 52 <= Zpos m < 2 ^ 53 -> -1074 <= e <= 971 ->
  binary_round_aux prec emax false (Zpos m) e loc_Exact = S754_finite false m e.
Proof.
  intros Hm He. unfold binary_round_aux.
  rewrite (shr_fexp_53 (Zpos m) e) by lia. simpl.
  rewrite (shr_fexp_53 (Zpos m) e) by lia. simpl.
  destruct (Z.leb_spec e 971); [reflexivity | lia].
Qed.

Lemma Pos_iter_xO (p k : positive) :
  Zpos (Pos.iter xO p k) = Zpos p * 2 ^ Zpos k.
Proof.
  induction k as [|k IH] using Pos.peano_ind.
  - simpl. lia.
  - rewrite Pos.iter_succ, Pos2Z.inj_succ, Z.pow_succ_r by lia.
    change (Zpos (Pos.iter xO p k)~0) with (2 * Zpos (Pos.iter xO p k)).
    rewrite IH. ring.
Qed.

(** The conversion of a positive integer below 2^53 is exact. *)
Theorem binary_normalize_int (n : Z) :
  0 < n < 2 ^ 53 ->
  normal (binary_normalize prec emax n 0 false) (IZR n).
Proof.
  intros Hn. destruct n as [|p|p]; try lia.
  pose proof (digits2_pos_bounds p) as [Bl Bu].
  set (d := Zpos (digits2_pos p)) in *.
  assert (Hd : 1 <= d <= 53).
  { split; [unfold d; lia|].
    destruct (Z.lt_ge_cases 53 d) as [L|G]; [|lia].
    assert (2 ^ 53 <= 2 ^ (d - 1)) by (apply Z.pow_le_mono_r; lia). lia. }
  unfold binary_normalize, binary_round. fold d.
  unfold fexp, SpecFloat.emin, prec, emax.
  replace (Z.max (d + 0 - 53) (3 - 1024 - 53)) with (d - 53) by lia.
  unfold shl_align.
  destruct (d - 53 - 0) as [|k|k] eqn:Ek; try lia.
  - rewrite binary_round_aux_exact.
    + exists p, 0. split; [reflexivity|]. split.
      * replace d with 53 in Bl by lia. simpl in Bl. lia.
      * split; [lia|]. change (bpow 0) with 1%R. ring.
    + replace d with 53 in Bl by lia. simpl in Bl. lia.
    + lia.
  - assert (Es : 2 ^ (d - 1) * 2 ^ Zpos k = 2 ^ 52).
    { rewrite <- Z.pow_add_r by lia. f_equal. lia. }
    assert (Et : 2 ^ d * 2 ^ Zpos k = 2 ^ 53).
    { rewrite <- Z.pow_add_r by lia. f_equal. lia. }
    assert (Pk : 0 < 2 ^ Zpos k) by (apply Z.pow_pos_nonneg; lia).
    assert (Hm : 2 ^ 52 <= Zpos (Pos.iter xO p k) < 2 ^ 53).
    { rewrite Pos_iter_xO, <- Es, <- Et. split.
      - apply Z.mul_le_mono_nonneg_r; lia.
      - apply Z.mul_lt_mono_pos_r; lia. }
    rewrite binary_round_aux_exact by lia.
    exists (Pos.iter xO p k), (d - 53). split; [reflexivity|].
    split; [exact Hm|]. split; [lia|].
    rewrite Pos_iter_xO, mult_IZR, <- (bpow_IZR (Zpos k)) by lia.
    replace (d - 53) with (- Zpos k) by lia. rewrite bpow_opp.
    pose proof (bpow_pos (Zpos k)). field. lra.
Qed.

(** Truncating a positive number gives the integer part of its value. *)
Lemma trunc_normal (m : positive) (e : Z) :
  (IZR (PyFloat.trunc_finite false m e) <= IZR (Zpos m) * bpow e
   < IZR (PyFloat.trunc_finite false m e) + 1)%R.
Proof.
  unfold PyFloat.trunc_finite.
  destruct e as [|k|k]; cbv zeta.
  - change (bpow 0) with 1%R. change (2 ^ 0) with 1. rewrite Z.mul_1_r. lra.
  - rewrite mult_IZR, <- (bpow_IZR (Zpos k)) by lia. lra.
  - assert (Pk : 0 < 2 ^ Zpos k) by (apply Z.pow_pos_nonneg; lia).
    pose proof (Z.div_mod (Zpos m) (2 ^ Zpos k) ltac:(lia)) as DM.
    pose proof (Z.mod_pos_bound (Zpos m) (2 ^ Zpos k) Pk) as MB.
    set (q := Zpos m / 2 ^ Zpos k) in *. set (r := Zpos m mod 2 ^ Zpos k) in *.
    change (Zneg k) with (- Zpos k). rewrite bpow_opp, (bpow_IZR (Zpos k)) by lia.
    assert (P : (0 < IZR (2 ^ Zpos k))%R) by (apply IZR_lt; lia).
    rewrite DM, plus_IZR, mult_IZR.
    assert (0 <= IZR r < IZR (2 ^ Zpos k))%R
      by (split; [apply IZR_le | apply IZR_lt]; lia).
    split.
    + apply (Rmult_le_reg_r (IZR (2 ^ Zpos k))); [exact P|].
      replace ((IZR (2 ^ Zpos k) * IZR q + IZR r) * / IZR (2 ^ Zpos k) * IZR (2 ^ Zpos k))%R
        with (IZR (2 ^ Zpos k) * IZR q + IZR r)%R by (field; lra). lra.
    + apply (Rmult_lt_reg_r (IZR (2 ^ Zpos k))); [exact P|].
      replace ((IZR (2 ^ Zpos k) * IZR q + IZR r) * / IZR (2 ^ Zpos k) * IZR (2 ^ Zpos k))%R
        with (IZR (2 ^ Zpos k) * IZR q + IZR r)%R by (field; lra). lra.
Qed.

(** ** The detections kept by the loops of [analyze_face] *)

Lemma collect_boxes_spec (bs : list Box) :
  forall acc out,
    collect_boxes bs acc = Ok out ->
    out = (fst acc ++ map xyxy (filter passes_class_filter bs),
           snd acc ++ map conf (filter passes_class_filter bs)).
Proof.
  induction bs as [|b bs IH]; simpl; intros acc out H.
  - injection H as <-. rewrite !app_nil_r. destruct acc; reflexivity.
  - inv_bind H.
    assert (P : passes_class_filter b = (v =? 0))
      by (unfold passes_class_filter; rewrite Hv; reflexivity).
    rewrite P. apply IH in H. subst out.
    destruct (v =? 0); simpl.
    + rewrite <- !app_assoc. reflexivity.
    + reflexivity.
Qed.

Lemma collect_results_spec (results : list Results) :
  forall acc out,
    collect_results results acc = Ok out ->
    out = (fst acc ++ map xyxy (detections results),
           snd acc ++ map conf (detections results)).
Proof.
  unfold detections.
  induction results as [|r results IH]; simpl; intros acc out H.
  - injection H as <-. rewrite !app_nil_r. destruct acc; reflexivity.
  - inv_bind H. apply IH in H. subst out.
    rewrite filter_app, !map_app.
    destruct (boxes r) as [bs|].
    + apply collect_boxes_spec in Hv. subst v. simpl.
      rewrite !app_assoc. reflexivity.
    + injection Hv as <-. simpl. reflexivity.
Qed.

(** A successful analysis went through every stage. *)
Lemma infer_and_compose_Ok (cfg : Config) (model : YOLO) (image : Image)
    (t0 t1 : float) (resp : AnalyzeResponse) :
  infer_and_compose cfg model image t0 t1 = Ok resp ->
  exists results,
    predict model image (CONFIDENCE_THRESHOLD cfg) = Ok results /\
    compose (map xyxy (detections results)) (map conf (detections results))
      image t0 t1 = Ok resp.
Proof.
  unfold infer_and_compose. intros H.
  inv_bind H. rename v into results. inv_bind H.
  apply collect_results_spec in Hv0. subst v. simpl in H.
  exists results. split; assumption.
Qed.

Lemma analyze_face_200 (L : Libs) (cfg : Config) (model : YOLO)
    (s : string) (t0 t1 : float) (resp : AnalyzeResponse) :
  analyze_face L cfg (Some model) s t0 t1 = Http200 resp ->
  exists image,
    decode_base64_image L cfg s = Ok image /\
    infer_and_compose cfg model image t0 t1 = Ok resp.
Proof.
  unfold analyze_face, analyze_try. intros H.
  destruct (decode_base64_image L cfg s) as [image|e]; simpl in H.
  - exists image. split; [reflexivity|].
    destruct (infer_and_compose cfg model image t0 t1) as [r|e].
    + injection H as <-. reflexivity.
    + destruct (isinstance_ValueError e); discriminate H.
  - destruct (isinstance_ValueError e); discriminate H.
Qed.

Lemma compose_fields (bxs : list (list float)) (confs : list float)
    (image : Image) (t0 t1 : float) (resp : AnalyzeResponse) :
  compose bxs confs image t0 t1 = Ok resp ->
  success resp = true /\
  face_count resp = Z.of_nat (List.length bxs) /\
  bounding_boxes resp = Some bxs /\
  (match confs with
   | [] => Ok PyFloat.f0
   | _ => PyFloat.max confs
   end) = Ok (confidence resp) /\
  (if Z.of_nat (List.length bxs) =? 1
   then estimate_looking_away bxs (width image)
   else Ok false) = Ok (looking_away resp).
Proof.
  unfold compose. intros H.
  inv_bind H. inv_bind H. injection H as <-. simpl.
  repeat split; assumption.
Qed.

(** ** Python's numeric operations on image sizes *)

Lemma of_int_normal (n : Z) :
  0 < n < 2 ^ 53 -> normal (Prim2SF (PyFloat.of_int n)) (IZR n).
Proof.
  intros Hn. destruct n as [|p|p]; try lia. unfold PyFloat.of_int.
  rewrite of_uint63_spec, Uint63.of_Z_spec.
  rewrite Z.mod_small.
  - apply binary_normalize_int. exact Hn.
  - change wB with (2 ^ 63). lia.
Qed.

Lemma Rabs_bounds (a b c : R) :
  (Rabs (a - b) <= c)%R -> (b - c <= a <= b + c)%R.
Proof.
  unfold Rabs. destruct (Rcase_abs (a - b)); lra.
Qed.

(** A quotient of two positive numbers, in range, is a positive normal
    number within the rounding error of the exact quotient. *)
Lemma div_normal (a b : float) (va vb : R) :
  normal (Prim2SF a) va -> normal (Prim2SF b) vb ->
  (bpow (-1021) <= va / vb < bpow 1023)%R ->
  exists v,
    normal (Prim2SF (PrimFloat.div a b)) v /\
    (va / vb * (1 - / IZR (2 ^ 53)) <= v <= va / vb * (1 + / IZR (2 ^ 53)))%R.
Proof.
  intros Ha Hb Hr. rewrite FloatAxioms.div_spec.
  destruct (SFdiv_correct _ _ _ _ Ha Hb Hr) as (v & Hv & Hbound).
  exists v. split; [exact Hv|]. apply Rabs_bounds in Hbound.
  change (IZR (2 ^ 53)) with 9007199254740992%R in *. lra.
Qed.

Lemma mul_normal (a b : float) (va vb : R) :
  normal (Prim2SF a) va -> normal (Prim2SF b) vb ->
  (bpow (-1022) <= va * vb < bpow 1023)%R ->
  exists v,
    normal (Prim2SF (PrimFloat.mul a b)) v /\
    (va * vb * (1 - / IZR (2 ^ 53)) <= v <= va * vb * (1 + / IZR (2 ^ 53)))%R.
Proof.
  intros Ha Hb Hr. rewrite FloatAxioms.mul_spec.
  destruct (SFmul_correct _ _ _ _ Ha Hb Hr) as (v & Hv & Hbound).
  exists v. split; [exact Hv|]. apply Rabs_bounds in Hbound.
  change (IZR (2 ^ 53)) with 9007199254740992%R in *. lra.
Qed.

(** [int(x)] of a positive normal number is the integer part of its value. *)
Lemma to_int_normal (x : float) (v : R) :
  normal (Prim2SF x) v ->
  exists z, PyFloat.to_int x = Ok z /\ (IZR z <= v < IZR z + 1)%R.
Proof.
  intros (m & e & E & _ & _ & ->). unfold PyFloat.to_int. rewrite E.
  eexists. split; [reflexivity|]. apply trunc_normal.
Qed.

(** A positive normal number is not zero: dividing by it does not raise. *)
Lemma normal_not_zero (x : float) (v : R) :
  normal (Prim2SF x) v -> PrimFloat.eqb x 0%float = false.
Proof.
  intros (m & e & E & _). rewrite FloatAxioms.eqb_spec, E. reflexivity.
Qed.

Lemma to_int_zero_mul (q : float) (v : R) :
  normal (Prim2SF q) v ->
  PyFloat.to_int (PrimFloat.mul (PyFloat.of_int 0) q) = Ok 0.
Proof.
  intros (m & e & E & _). unfold PyFloat.to_int.
  rewrite FloatAxioms.mul_spec, E. reflexivity.
Qed.

Lemma IZR_2_31 : IZR (2 ^ 31) = 2147483648%R.
Proof. reflexivity. Qed.

(** One side of the resized image: with [0 < MAX < M < 2^31] and a side
    [0 <= s <= M], [int(s * (MAX / M))] is computed without exception, lies
    between 0 and [MAX], and is less than two pixels away from the exact
    [s * MAX / M]. *)
Theorem resized_side (s M MAX : Z) :
  0 < MAX < M -> M < 2 ^ 31 -> 0 <= s <= M ->
  exists ratio s',
    PyFloat.int_truediv MAX M = Ok ratio /\
    PyFloat.to_int (PrimFloat.mul (PyFloat.of_int s) ratio) = Ok s' /\
    0 <= s' <= MAX /\
    (s' - 1) * M < s * MAX < (s' + 2) * M.
Proof.
  intros HM HM31 Hs.
  assert (P31 : 2 ^ 31 < 2 ^ 53) by (apply Z.pow_lt_mono_r; lia).
  unfold PyFloat.int_truediv.
  destruct (Z.eqb_spec M 0) as [E|_]; [lia|].
  exists (PrimFloat.div (PyFloat.of_int MAX) (PyFloat.of_int M)).
  pose proof (of_int_normal MAX ltac:(lia)) as NMAX.
  pose proof (of_int_normal M ltac:(lia)) as NM.
  assert (RM : (1 <= IZR MAX)%R) by (apply IZR_le; lia).
  assert (RM' : (IZR MAX + 1 <= IZR M)%R)
    by (rewrite <- (plus_IZR MAX 1); apply IZR_le; lia).
  assert (RM31 : (IZR M <= 2147483648)%R)
    by (rewrite <- IZR_2_31; apply IZR_le; lia).
  set (r := (IZR MAX / IZR M)%R).
  assert (Rr : (/ 2147483648 <= r < 1)%R).
  { unfold r. split.
    - apply (Rmult_le_reg_r (IZR M)); [lra|].
      replace (IZR MAX / IZR M * IZR M)%R with (IZR MAX) by (field; lra).
      apply Rle_trans with (/ 2147483648 * 2147483648)%R; [|lra].
      apply Rmult_le_compat_l; lra.
    - apply (Rmult_lt_reg_r (IZR M)); [lra|].
      replace (IZR MAX / IZR M * IZR M)%R with (IZR MAX) by (field; lra).
      lra. }
  assert (Blow : (bpow (-1021) <= bpow (-60))%R) by (apply bpow_le; lia).
  assert (Blow' : (bpow (-1022) <= bpow (-60))%R) by (apply bpow_le; lia).
  assert (B60 : (bpow (-60) <= / 2147483648 * (1 - / 9007199254740992))%R).
  { change (-60) with (Z.opp 60).
    rewrite bpow_opp, (bpow_IZR 60) by lia.
    change (IZR (2 ^ 60)) with 1152921504606846976%R. lra. }
  assert (Bhigh : (bpow 40 < bpow 1023)%R) by (apply bpow_lt; lia).
  assert (B40 : bpow 40 = 1099511627776%R)
    by (rewrite (bpow_IZR 40) by lia; reflexivity).
  destruct (div_normal _ _ _ _ NMAX NM) as (vq & Nq & Hq).
  { fold r. lra. }
  fold r in Hq. change (IZR (2 ^ 53)) with 9007199254740992%R in Hq.
  destruct (Z.eq_dec s 0) as [->|Hs0].
  - exists 0. split; [reflexivity|].
    split; [exact (to_int_zero_mul _ _ Nq)|]. lia.
  - pose proof (of_int_normal s ltac:(lia)) as Ns.
    assert (Rs : (1 <= IZR s <= IZR M)%R)
      by (split; apply IZR_le; lia).
    assert (Hq1 : (IZR s * (r * (1 - / 9007199254740992)) <= IZR s * vq)%R)
      by (apply Rmult_le_compat_l; lra).
    assert (Hq2 : (IZR s * vq <= IZR s * (r * (1 + / 9007199254740992)))%R)
      by (apply Rmult_le_compat_l; lra).
    set (v := (IZR s * r)%R) in *.
    assert (Rv : (/ 2147483648 <= v <= IZR MAX)%R).
    { unfold v. split.
      - apply Rle_trans with (1 * r)%R; [lra|].
        apply Rmult_le_compat_r; lra.
      - apply Rle_trans with (IZR M * r)%R.
        + apply Rmult_le_compat_r; lra.
        + unfold r. right. field. lra. }
    replace (IZR s * (r * (1 - / 9007199254740992)))%R
      with (v * (1 - / 9007199254740992))%R in Hq1 by (unfold v; ring).
    replace (IZR s * (r * (1 + / 9007199254740992)))%R
      with (v * (1 + / 9007199254740992))%R in Hq2 by (unfold v; ring).
    destruct (mul_normal _ _ _ _ Ns Nq) as (vp & Np & Hp).
    { split; [|lra].
      apply Rle_trans with (bpow (-60)); [exact Blow'|].
      apply Rle_trans with (/ 2147483648 * (1 - / 9007199254740992))%R;
        [exact B60|]. lra. }
    change (IZR (2 ^ 53)) with 9007199254740992%R in Hp.
    destruct (to_int_normal _ _ Np) as (s' & Hs' & Ht).
    exists s'. split; [reflexivity|]. split; [exact Hs'|].
    assert (Up : (vp <= v * (1 + / 9007199254740992) * (1 + / 9007199254740992))%R).
    { apply Rle_trans with (IZR s * vq * (1 + / 9007199254740992))%R; [lra|].
      apply Rmult_le_compat_r; lra. }
    assert (Lo : (v * (1 - / 9007199254740992) * (1 - / 9007199254740992) <= vp)%R).
    { apply Rle_trans with (IZR s * vq * (1 - / 9007199254740992))%R; [|lra].
      apply Rmult_le_compat_r; lra. }
    assert (Ev : (v * IZR M = IZR (s * MAX))%R).
    { unfold v, r. rewrite mult_IZR. field. lra. }
    assert (V1 : (IZR s' - 1 < v)%R) by lra.
    assert (V2 : (v < IZR s' + 2)%R) by lra.
    assert (V3 : (IZR s' < IZR MAX + 1)%R) by lra.
    assert (V4 : (-1 < IZR s')%R) by lra.
    split.
    + split.
      * assert (IZR (-1) < IZR s')%R by (simpl; lra).
        apply lt_IZR in H. lia.
      * rewrite <- (plus_IZR MAX 1) in V3. apply lt_IZR in V3. lia.
    + split; apply lt_IZR; rewrite <- Ev, mult_IZR.
      * rewrite minus_IZR. apply Rmult_lt_compat_r; lra.
      * rewrite plus_IZR. apply Rmult_lt_compat_r; lra.
Qed.

(** ** The image decoder and the heuristic *)

Lemma Sample_contract : Pillow_contract Sample.libs.
Proof.
  constructor.
  - intros data im. simpl. unfold Sample.open_header.
    destruct data as [|w1 [|w0 [|h1 [|h0 rest]]]]; try discriminate.
    intros H. injection H as <-. simpl.
    pose proof (Byte.to_N_bounded w1). pose proof (Byte.to_N_bounded w0).
    pose proof (Byte.to_N_bounded h1). pose proof (Byte.to_N_bounded h0).
    lia.
  - intros im m im' H. injection H as <-. reflexivity.
  - intros im m im' H. injection H as <-. reflexivity.
  - intros im sz im'. simpl. unfold Sample.set_size.
    destruct (_ || _); [discriminate|].
    intros H. injection H as <-. destruct sz; reflexivity.
Qed.

(** The text handed to the [try] block. *)
Lemma decode_base64_image_Ok (L : Libs) (cfg : Config) (s : string)
    (im : Image) :
  decode_base64_image L cfg s = Ok im ->
  exists text, decode_try L cfg text = Ok im.
Proof.
  unfold decode_base64_image. intros H. inv_bind H.
  exists v. destruct (decode_try L cfg v); [exact H | discriminate H].
Qed.

(** On an image of positive width the heuristic raises nothing: the half
    width is a positive number, so the division is defined. *)
Lemma estimate_looking_away_defined (x1 y1 x2 y2 : float)
    (rest : list float) (others : list (list float)) (image_width : Z) :
  0 < image_width < 2 ^ 53 ->
  estimate_looking_away ((x1 :: y1 :: x2 :: y2 :: rest) :: others) image_width
  = Ok (PyFloat.gt (deviation_ratio x1 x2 image_width) PyFloat.f0_4).
Proof.
  intros Hw. unfold estimate_looking_away. simpl firstn.
  unfold PyFloat.int_truediv. change (2 =? 0) with false. simpl bind.
  destruct (div_normal (PyFloat.of_int image_width) (PyFloat.of_int 2)
              (IZR image_width) 2%R) as (v & Nv & _).
  - apply of_int_normal. exact Hw.
  - apply (of_int_normal 2). lia.
  - assert (1 <= IZR image_width)%R by (apply IZR_le; lia).
    assert (IZR image_width < IZR (2 ^ 53))%R by (apply IZR_lt; lia).
    change (IZR (2 ^ 53)) with 9007199254740992%R in *.
    assert (bpow (-1021) <= bpow (-1))%R by (apply bpow_le; lia).
    assert (bpow 53 < bpow 1023)%R by (apply bpow_lt; lia).
    change (bpow (-1)) with (/ (2 * 1))%R in *.
    rewrite (bpow_IZR 53) in * by lia.
    change (IZR (2 ^ 53)) with 9007199254740992%R in *. lra.
  - change (PyFloat.of_int 2) with 2%float in Nv.
    unfold PyFloat.truediv. rewrite (normal_not_zero _ _ Nv). reflexivity.
Qed.

(** ** Startup *)

(** The handle is [None] after startup exactly when [YOLO(MODEL_PATH)]
    raised; an exception of the warm-up inference leaves the constructed
    model in place. *)
Lemma lifespan_startup_None (construct : Res YOLO) (warmup : YOLO -> Res unit) :
  lifespan_startup construct warmup = None <-> exists e, construct = Raise e.
Proof.
  unfold lifespan_startup. destruct construct as [m|e].
  - destruct (warmup m); split; try discriminate;
      intros (e' & E); discriminate E.
  - split; [intros _; exists e; reflexivity | reflexivity].
Qed.

(** Once constructed, the model stays in the handle, whether the warm-up
    inference succeeds or raises. *)
Lemma lifespan_startup_Some (m : YOLO) (warmup : YOLO -> Res unit) :
  lifespan_startup (Ok m) warmup = Some m.
Proof.
  unfold lifespan_startup. destruct (warmup m); reflexivity.
Qed.

(** * The claims *)

(** C1. For an analyzed image with exactly one detection, [looking_away]
    is true exactly when the deviation of the box centre [(x1 + x2) / 2]
    from the image centre [width / 2], divided by the half width, is
    greater than 0.4; at a ratio of 0.4 or below it is false. *)
Theorem looking_away_iff_deviation_above_threshold (L : Libs) (cfg : Config)
    (model : YOLO) (s : string) (t0 t1 : float) (image : Image)
    (results : list Results) (b : Box) (resp : AnalyzeResponse) :
  decode_base64_image L cfg s = Ok image ->
  predict model image (CONFIDENCE_THRESHOLD cfg) = Ok results ->
  detections results = [b] ->
  analyze_face L cfg (Some model) s t0 t1 = Http200 resp ->
  exists x1 y1 x2 y2 rest,
    xyxy b = x1 :: y1 :: x2 :: y2 :: rest /\
    let ratio := deviation_ratio x1 x2 (width image) in
    (looking_away resp = true <-> PyFloat.gt ratio PyFloat.f0_4 = true) /\
    (PrimFloat.leb ratio PyFloat.f0_4 = true -> looking_away resp = false).
Proof.
  intros Hd Hp Hdet H.
  apply analyze_face_200 in H. destruct H as (image' & Hd' & H).
  rewrite Hd in Hd'. injection Hd' as <-.
  apply infer_and_compose_Ok in H. destruct H as (results' & Hp' & H).
  rewrite Hp in Hp'. injection Hp' as <-.
  apply compose_fields in H. destruct H as (_ & _ & _ & _ & Hl).
  rewrite Hdet in Hl. simpl in Hl.
  destruct (xyxy b) as [|x1 [|y1 [|x2 [|y2 rest]]]]; try discriminate Hl.
  exists x1, y1, x2, y2, rest. split; [reflexivity|].
  simpl in Hl. unfold PyFloat.truediv in Hl.
  destruct (PrimFloat.eqb _ 0%float); [discriminate Hl|].
  simpl in Hl. injection Hl as Hl.
  assert (E : looking_away resp
              = PyFloat.gt (deviation_ratio x1 x2 (width image)) PyFloat.f0_4).
  { rewrite <- Hl. reflexivity. }
  cbv zeta. rewrite E. split; [reflexivity|].
  apply FloatOrder.leb_not_gt.
Qed.

(** A face centred at 560 of 640 columns: the ratio is 0.75. *)
Lemma looking_away_iff_deviation_above_threshold_witness :
  let resp :=
    {| success := true; face_count := 1; confidence := 0.75%float;
       looking_away := true; processing_time_ms := 1000%float;
       bounding_boxes := Some [xyxy Sample.box_right];
       error := None |} in
  deviation_ratio 500%float 620%float 640 = 0.75%float /\
  (looking_away resp = true <->
   PyFloat.gt (deviation_ratio 500%float 620%float 640) PyFloat.f0_4 = true).
Proof.
  intros resp. split; [vm_compute; reflexivity|].
  destruct (looking_away_iff_deviation_above_threshold
              Sample.libs default_config
              (Sample.model_of [Sample.box_other; Sample.box_right])
              Sample.image_640x480 1%float 2%float
              {| mode := "RGB"; width := 640; height := 480;
                 pixels := list_byte_of_string "pixels" |}
              [ {| boxes := Some [Sample.box_other; Sample.box_right] |} ]
              Sample.box_right resp)
    as (x1 & y1 & x2 & y2 & rest & E & W & _).
  - vm_compute; reflexivity.
  - reflexivity.
  - vm_compute; reflexivity.
  - vm_compute; reflexivity.
  - injection E as <- <- <- <- <-. exact W.
Defined.

(** At the boundary: a face centred at column 7 of 10 deviates by exactly
    the binary64 number 0.4 and is not flagged; one column further it is. *)
Example looking_away_at_the_boundary :
  deviation_ratio 6%float 8%float 10 = PyFloat.f0_4 /\
  estimate_looking_away [[6; 0; 8; 1]%float] 10 = Ok false /\
  estimate_looking_away [[7; 0; 9; 1]%float] 10 = Ok true.
Proof. repeat split; vm_compute; reflexivity. Qed.

(** C2. Whenever an analysis answers with a face count other than 1 (no
    detection, or several), the [looking_away] field of the response is
    false, whatever the boxes are. *)
Theorem looking_away_needs_single_face (L : Libs) (cfg : Config)
    (yolo_model : option YOLO) (s : string) (t0 t1 : float)
    (resp : AnalyzeResponse) :
  analyze_face L cfg yolo_model s t0 t1 = Http200 resp ->
  face_count resp <> 1 ->
  looking_away resp = false.
Proof.
  intros H Hc. destruct yolo_model as [model|].
  - apply analyze_face_200 in H. destruct H as (image & _ & H).
    apply infer_and_compose_Ok in H. destruct H as (results & _ & H).
    apply compose_fields in H. destruct H as (_ & Hn & _ & _ & Hl).
    rewrite <- Hn in Hl.
    destruct (face_count resp =? 1) eqn:E.
    + apply Z.eqb_eq in E. contradiction.
    + injection Hl as <-. reflexivity.
  - simpl in H. injection H as <-. reflexivity.
Qed.

(** Two faces, one of them far to the right: the flag stays false. *)
Lemma looking_away_needs_single_face_witness :
  let resp :=
    {| success := true; face_count := 2; confidence := 0.875%float;
       looking_away := false; processing_time_ms := 1000%float;
       bounding_boxes := Some [xyxy Sample.box_right; xyxy Sample.box_middle];
       error := None |} in
  analyze_face Sample.libs default_config
    (Some (Sample.model_of [Sample.box_right; Sample.box_other;
                            Sample.box_middle]))
    Sample.image_640x480 1%float 2%float = Http200 resp /\
  looking_away resp = false.
Proof.
  intros resp.
  assert (H : analyze_face Sample.libs default_config
    (Some (Sample.model_of [Sample.box_right; Sample.box_other;
                            Sample.box_middle]))
    Sample.image_640x480 1%float 2%float = Http200 resp)
    by (vm_compute; reflexivity).
  split; [exact H|].
  apply (looking_away_needs_single_face _ _ _ _ _ _ resp H).
  simpl. lia.
Defined.

(** C3. The [confidence] of a response is the maximum of the confidences
    of the detections that pass the class filter, and 0.0 when there is no
    such detection. *)
Theorem confidence_is_max_of_detections (L : Libs) (cfg : Config)
    (model : YOLO) (s : string) (t0 t1 : float) (image : Image)
    (results : list Results) (resp : AnalyzeResponse) :
  decode_base64_image L cfg s = Ok image ->
  predict model image (CONFIDENCE_THRESHOLD cfg) = Ok results ->
  analyze_face L cfg (Some model) s t0 t1 = Http200 resp ->
  let confidences := map conf (detections results) in
  (confidences = [] -> confidence resp = 0%float) /\
  (confidences <> [] ->
   Forall (fun c => PrimFloat.is_nan c = false) confidences ->
   is_maximum (confidence resp) confidences).
Proof.
  intros Hd Hp H confidences.
  apply analyze_face_200 in H. destruct H as (image' & Hd' & H).
  rewrite Hd in Hd'. injection Hd' as <-.
  apply infer_and_compose_Ok in H. destruct H as (results' & Hp' & H).
  rewrite Hp in Hp'. injection Hp' as <-.
  apply compose_fields in H. destruct H as (_ & _ & _ & Hc & _).
  fold confidences in Hc. split.
  - intros E. rewrite E in Hc. injection Hc as <-. reflexivity.
  - intros Hne Hnan. destruct confidences as [|c rest]; [now elim Hne|].
    simpl in Hc. injection Hc as <-.
    inversion Hnan as [|? ? Hc0 Hrest]; subst.
    destruct (max_from_is_maximum rest c Hc0 Hrest) as (_ & Hin & Hmax).
    split; assumption.
Qed.

Lemma confidence_is_max_of_detections_witness :
  let model := Sample.model_of [Sample.box_right; Sample.box_other;
                                Sample.box_middle] in
  let resp :=
    {| success := true; face_count := 2; confidence := 0.875%float;
       looking_away := false; processing_time_ms := 1000%float;
       bounding_boxes := Some [xyxy Sample.box_right; xyxy Sample.box_middle];
       error := None |} in
  is_maximum (confidence resp) [0.75; 0.875]%float.
Proof.
  intros model resp.
  refine (proj2 (confidence_is_max_of_detections Sample.libs default_config
            model Sample.image_640x480 1%float 2%float
            {| mode := "RGB"; width := 640; height := 480;
               pixels := list_byte_of_string "pixels" |}
            [ {| boxes := Some [Sample.box_right; Sample.box_other;
                                Sample.box_middle] |} ]
            resp _ _ _) _ _).
  - vm_compute; reflexivity.
  - reflexivity.
  - vm_compute; reflexivity.
  - vm_compute; discriminate.
  - vm_compute. repeat constructor.
Defined.

(** C4. Without a model (the handle is [None], as startup leaves it when
    the model could not be constructed), [POST /analyze] answers every
    request, whatever its image text, with status 200 and the fixed mock
    payload: success, one face, confidence 0.95, not looking away, and the
    explanatory error text. *)
Theorem analyze_without_model_is_mock (L : Libs) (cfg : Config)
    (e : PyExc) (warmup : YOLO -> Res unit) (s : string) (t0 t1 : float) :
  let yolo_model := lifespan_startup (Raise e) warmup in
  exists resp,
    analyze_face L cfg yolo_model s t0 t1 = Http200 resp /\
    success resp = true /\
    face_count resp = 1 /\
    confidence resp = PyFloat.f0_95 /\
    looking_away resp = false /\
    error resp = Some "Model not loaded - mock response".
Proof.
  simpl. exists (mock_response t0 t1). repeat split.
Qed.

(** C5 as stated fails: without a model an undecodable image is answered
    with status 200 and the mock payload, not with status 400. *)
Lemma undecodable_image_without_model :
  decode_base64_image Sample.libs default_config "!!"
    = Raise (mkExc ValueError "Invalid image data: Incorrect padding") /\
  analyze_face Sample.libs default_config None "!!" 1%float 2%float
    = Http200 (mock_response 1%float 2%float) /\
  forall detail,
    analyze_face Sample.libs default_config None "!!" 1%float 2%float
      <> HttpError 400 detail.
Proof.
  split; [vm_compute; reflexivity|].
  split; [reflexivity|].
  intros detail. simpl. discriminate.
Qed.

(** C5 as stated also fails with a model loaded: data that [Image.open]
    accepts, so that the decoder returns an image, but whose pixels cannot
    be loaded, fails in [np.array(image)] with an [OSError] and is
    answered with status 500. *)
Example truncated_image_is_500 :
  let model :=
    array_then_infer load_pixels
      (fun _ _ => Ok [ {| boxes := Some [Sample.box_middle] |} ]) in
  decode_base64_image Sample.libs default_config image_truncated
    = Ok {| mode := "RGB"; width := 640; height := 480; pixels := [] |} /\
  analyze_face Sample.libs default_config (Some model) image_truncated
    1%float 2%float = HttpError 500 "image file is truncated".
Proof. split; vm_compute; reflexivity. Qed.

(** C5, amended. With a model loaded, a request on whose image text
    [decode_base64_image] raises (the base64 decoding, [Image.open], the
    conversion to RGB or the resize fails) is answered with status 400 and
    a detail that contains "Invalid image data". *)
Theorem undecodable_image_is_400 (L : Libs) (cfg : Config) (model : YOLO)
    (s : string) (t0 t1 : float) (e : PyExc) :
  decode_base64_image L cfg s = Raise e ->
  analyze_face L cfg (Some model) s t0 t1 = HttpError 400 (str e) /\
  PyStr.contains "Invalid image data" (str e) = true.
Proof.
  intros H. pose proof (decode_base64_image_Raise L cfg s e H) as (Hc & cause & Hm).
  split.
  - unfold analyze_face, analyze_try. rewrite H. simpl.
    unfold isinstance_ValueError. rewrite Hc. reflexivity.
  - rewrite Hm.
    change ("Invalid image data: " ++ cause)%string
      with ("Invalid image data" ++ String ":" (String " " cause))%string.
    apply contains_prefixed.
Qed.

Lemma undecodable_image_is_400_witness :
  analyze_face Sample.libs default_config
    (Some (Sample.model_of [Sample.box_middle])) "!!" 1%float 2%float
    = HttpError 400 "Invalid image data: Incorrect padding" /\
  PyStr.contains "Invalid image data" "Invalid image data: Incorrect padding"
    = true.
Proof.
  apply (undecodable_image_is_400 Sample.libs default_config
           (Sample.model_of [Sample.box_middle]) "!!" 1%float 2%float
           (mkExc ValueError "Invalid image data: Incorrect padding")).
  vm_compute; reflexivity.
Defined.

(** C6 as stated fails: a [ValueError] raised by the inference call, after
    the image was decoded, is answered with status 400, not 500. *)
Lemma inference_ValueError_is_400 :
  let e := mkExc ValueError "boom" in
  let image := {| mode := "RGB"; width := 640; height := 480;
                  pixels := list_byte_of_string "pixels" |} in
  decode_base64_image Sample.libs default_config Sample.image_640x480
    = Ok image /\
  infer_and_compose default_config (Sample.failing_model e) image
    1%float 2%float = Raise e /\
  analyze_face Sample.libs default_config (Some (Sample.failing_model e))
    Sample.image_640x480 1%float 2%float = HttpError 400 "boom".
Proof.
  repeat split; vm_compute; reflexivity.
Qed.

(** The same happens inside the handler's own code: a class id that is NaN
    makes [int(box.cls[0])] raise a [ValueError]. *)
Example nan_class_is_400 :
  analyze_face Sample.libs default_config
    (Some (Sample.model_of
             [ {| cls := PrimFloat.nan; xyxy := [0; 0; 1; 1]%float;
                  conf := 0.5%float |} ]))
    Sample.image_640x480 1%float 2%float
  = HttpError 400 "cannot convert float NaN to integer".
Proof. vm_compute; reflexivity. Qed.

(** C6, amended. With the image decoded, an exception that is not a
    [ValueError], raised by the inference or while the result is composed,
    is answered with status 500 and the exception's message as detail. *)
Theorem other_exception_is_500 (L : Libs) (cfg : Config) (model : YOLO)
    (s : string) (t0 t1 : float) (image : Image) (e : PyExc) :
  decode_base64_image L cfg s = Ok image ->
  infer_and_compose cfg model image t0 t1 = Raise e ->
  isinstance_ValueError e = false ->
  analyze_face L cfg (Some model) s t0 t1 = HttpError 500 (str e).
Proof.
  intros Hd Hi Hv. unfold analyze_face, analyze_try.
  rewrite Hd. simpl. rewrite Hi, Hv. reflexivity.
Qed.

Lemma other_exception_is_500_witness :
  analyze_face Sample.libs default_config
    (Some (Sample.failing_model (mkExc (OtherException "RuntimeError") "boom")))
    Sample.image_640x480 1%float 2%float = HttpError 500 "boom".
Proof.
  apply (other_exception_is_500 Sample.libs default_config _ _ _ _
           {| mode := "RGB"; width := 640; height := 480;
              pixels := list_byte_of_string "pixels" |}
           (mkExc (OtherException "RuntimeError") "boom")).
  - vm_compute; reflexivity.
  - reflexivity.
  - reflexivity.
Defined.

(** C7. The base64 text of any data decodes to the same image (or fails
    the same way) whether it comes bare or behind a data-URL prefix
    separated by a comma. *)
Theorem data_url_prefix_is_discarded (L : Libs) (cfg : Config)
    (prefix : string) (data : list byte) :
  PyStr.contains_char ","%char prefix = false ->
  decode_base64_image L cfg
    (prefix ++ String ","%char (Base64.b64encode data))%string
  = decode_base64_image L cfg (Base64.b64encode data).
Proof.
  intros Hp. pose proof (b64encode_no_comma data) as Hb.
  unfold decode_base64_image.
  rewrite contains_char_app. cbn [PyStr.contains_char].
  rewrite Ascii.eqb_refl, orb_true_r.
  rewrite (split_prefix_body _ _ _ Hp Hb), Hb. reflexivity.
Qed.

Lemma data_url_prefix_is_discarded_witness :
  decode_base64_image Sample.libs default_config
    ("data:image/jpeg;base64"
       ++ String ","%char (Base64.b64encode (list_byte_of_string "Man is d")))%string
  = decode_base64_image Sample.libs default_config
      (Base64.b64encode (list_byte_of_string "Man is d")).
Proof.
  apply (data_url_prefix_is_discarded Sample.libs default_config
           "data:image/jpeg;base64" (list_byte_of_string "Man is d")).
  reflexivity.
Defined.



(** C9. [GET /health] reports [model_loaded = false] and the status
    "degraded" exactly when there is no model, [model_loaded = true] and
    "healthy" exactly when there is one, and always the configured model
    path and confidence threshold. *)
Theorem health_reports_model_state (cfg : Config) (yolo_model : option YOLO) :
  let h := health_check cfg yolo_model in
  ((model_loaded h = false /\ status h = "degraded") <-> yolo_model = None) /\
  ((model_loaded h = true /\ status h = "healthy")
   <-> exists model, yolo_model = Some model) /\
  model_path h = MODEL_PATH cfg /\
  confidence_threshold h = CONFIDENCE_THRESHOLD cfg.
Proof.
  destruct yolo_model as [model|]; simpl.
  - split; [split; [intros (E & _); discriminate E | discriminate]|].
    split; [split; [intros _; exists model; reflexivity | intros _; split; reflexivity]|].
    split; reflexivity.
  - split; [split; [reflexivity | intros _; split; reflexivity]|].
    split; [split; [intros (E & _); discriminate E | intros (m & E); discriminate E]|].
    split; reflexivity.
Qed.

(** C10. Whatever the request, [POST /analyze] either returns a body whose
    [success] flag is true, or an HTTP error of status 400 or 500: no
    returned body has [success = false]. *)
Theorem returned_body_has_success (L : Libs) (cfg : Config)
    (yolo_model : option YOLO) (s : string) (t0 t1 : float) :
  (exists resp,
     analyze_face L cfg yolo_model s t0 t1 = Http200 resp /\
     success resp = true) \/
  (exists code detail,
     analyze_face L cfg yolo_model s t0 t1 = HttpError code detail /\
     (code = 400 \/ code = 500)).
Proof.
  destruct yolo_model as [model|].
  - unfold analyze_face.
    destruct (analyze_try L cfg model s t0 t1) as [resp|e] eqn:E.
    + left. exists resp. split; [reflexivity|].
      unfold analyze_try in E. inv_bind E.
      apply infer_and_compose_Ok in E. destruct E as (results & _ & E).
      apply compose_fields in E. tauto.
    + right. destruct (isinstance_ValueError e).
      * exists 400, (str e). split; [reflexivity | left; reflexivity].
      * exists 500, (str e). split; [reflexivity | right; reflexivity].
  - left. exists (mock_response t0 t1). split; reflexivity.
Qed.

(** * Further properties of the code *)

(** ** Startup and the endpoints *)

(** X1. After startup the handle is [None] exactly when [YOLO(MODEL_PATH)]
    raised; once the constructor returned, the handle holds the model,
    whatever the warm-up inference does. *)
Theorem startup_handle_follows_constructor (construct : Res YOLO)
    (warmup : YOLO -> Res unit) :
  (lifespan_startup construct warmup = None <-> exists e, construct = Raise e)
  /\
  (forall m, construct = Ok m -> lifespan_startup construct warmup = Some m).
Proof.
  unfold lifespan_startup. destruct construct as [m|e].
  - split.
    + destruct (warmup m); split; try discriminate;
        intros (e' & E); discriminate E.
    + intros m' E. injection E as <-. destruct (warmup m); reflexivity.
  - split.
    + split; [intros _; exists e; reflexivity | reflexivity].
    + intros m E. discriminate E.
Qed.

(** X2. A warm-up inference that raises, after the model was constructed,
    does not put the service in degraded mode: [/health] reports a loaded,
    healthy model and [/analyze] runs the inference instead of returning
    the mock. *)
Theorem failed_warmup_is_not_degraded (L : Libs) (cfg : Config) (m : YOLO)
    (warmup : YOLO -> Res unit) (e : PyExc) (s : string) (t0 t1 : float) :
  warmup m = Raise e ->
  let yolo_model := lifespan_startup (Ok m) warmup in
  status (health_check cfg yolo_model) = "healthy" /\
  model_loaded (health_check cfg yolo_model) = true /\
  analyze_face L cfg yolo_model s t0 t1
  = match analyze_try L cfg m s t0 t1 with
    | Ok response => Http200 response
    | Raise e' => HttpError (if isinstance_ValueError e' then 400 else 500)
                    (str e')
    end.
Proof.
  intros H. unfold lifespan_startup. rewrite H. simpl.
  split; [reflexivity|]. split; [reflexivity|].
  destruct (analyze_try L cfg m s t0 t1) as [r|e']; [reflexivity|].
  destruct (isinstance_ValueError e'); reflexivity.
Qed.

Lemma failed_warmup_is_not_degraded_witness :
  let warmup := fun _ : YOLO =>
    @Raise unit (mkExc (OtherException "RuntimeError") "no kernel image") in
  let yolo_model :=
    lifespan_startup (Ok (Sample.model_of [Sample.box_middle])) warmup in
  status (health_check default_config yolo_model) = "healthy" /\
  model_loaded (health_check default_config yolo_model) = true.
Proof.
  intros warmup yolo_model.
  destruct (failed_warmup_is_not_degraded Sample.libs default_config
              (Sample.model_of [Sample.box_middle]) warmup
              (mkExc (OtherException "RuntimeError") "no kernel image")
              Sample.image_640x480 1%float 2%float eq_refl)
    as (H1 & H2 & _).
  split; [exact H1 | exact H2].
Defined.

(** ** The image decoder *)

Lemma split_app_sep (c : ascii) (p t : string) :
  PyStr.contains_char c p = false ->
  PyStr.split c (p ++ String c t)%string = p :: PyStr.split c t.
Proof.
  intros Hp. induction p as [|d p IH]; simpl in *.
  - rewrite Ascii.eqb_refl. reflexivity.
  - destruct (Ascii.eqb d c); [discriminate Hp|].
    rewrite (IH Hp). reflexivity.
Qed.

Lemma split_head (c : ascii) (b rest : string) :
  PyStr.contains_char c b = false ->
  exists more, PyStr.split c (b ++ String c rest)%string = b :: more.
Proof.
  intros Hb. rewrite (split_app_sep c b rest Hb). eexists. reflexivity.
Qed.

(** The stages a successful run of the [try] block went through. *)
Lemma decode_try_stages (L : Libs) (cfg : Config) (text : string)
    (im : Image) :
  decode_try L cfg text = Ok im ->
  exists data source rgb,
    b64decode L text = Ok data /\
    Image_open L data = Ok source /\
    (if String.eqb (mode source) "RGB" then Ok source
     else Image_convert L source "RGB") = Ok rgb /\
    (let longest := Z.max (width rgb) (height rgb) in
     if MAX_IMAGE_SIZE cfg <? longest then
       ratio <- PyFloat.int_truediv (MAX_IMAGE_SIZE cfg) longest ;;
       new_w <- PyFloat.to_int
                  (PrimFloat.mul (PyFloat.of_int (width rgb)) ratio) ;;
       new_h <- PyFloat.to_int
                  (PrimFloat.mul (PyFloat.of_int (height rgb)) ratio) ;;
       Image_resize L rgb (new_w, new_h)
     else Ok rgb) = Ok im.
Proof.
  unfold decode_try. intros H.
  inv_bind H. inv_bind H. inv_bind H.
  exists v, v0, v1. repeat split; assumption.
Qed.

(** X3. Whatever goes wrong inside the decoder, the caller sees one kind of
    exception: a [ValueError] whose message is "Invalid image data: "
    followed by the message of the exception that the [try] block
    raised.  In particular the index into the split text never fails. *)
Theorem decoder_failures_are_wrapped (L : Libs) (cfg : Config) (s : string)
    (e : PyExc) :
  decode_base64_image L cfg s = Raise e ->
  exists text cause,
    decode_try L cfg text = Raise cause /\
    e = mkExc ValueError ("Invalid image data: " ++ str cause)%string.
Proof.
  unfold decode_base64_image. intros H.
  destruct (PyStr.contains_char ","%char s) eqn:C.
  - destruct (split_with_sep _ _ C) as (p & q & rest & E).
    rewrite E in H. simpl in H.
    destruct (decode_try L cfg q) as [im|e'] eqn:D; [discriminate H|].
    injection H as <-. exists q, e'. split; [exact D | reflexivity].
  - simpl in H.
    destruct (decode_try L cfg s) as [im|e'] eqn:D; [discriminate H|].
    injection H as <-. exists s, e'. split; [exact D | reflexivity].
Qed.

Lemma decoder_failures_are_wrapped_witness :
  exists text cause,
    decode_try Sample.libs default_config text = Raise cause /\
    mkExc ValueError "Invalid image data: cannot identify image file"
    = mkExc ValueError ("Invalid image data: " ++ str cause)%string.
Proof.
  apply (decoder_failures_are_wrapped Sample.libs default_config "abc").
  vm_compute; reflexivity.
Defined.

(** X4. Of a text with several commas only the piece between the first
    and the second comma is decoded: what follows the second comma is
    dropped, as is the prefix. *)
Theorem only_second_piece_is_decoded (L : Libs) (cfg : Config)
    (prefix body rest : string) :
  PyStr.contains_char ","%char prefix = false ->
  PyStr.contains_char ","%char body = false ->
  decode_base64_image L cfg
    (prefix ++ String ","%char (body ++ String ","%char rest))%string
  = decode_base64_image L cfg body.
Proof.
  intros Hp Hb. unfold decode_base64_image.
  rewrite contains_char_app. cbn [PyStr.contains_char].
  rewrite Ascii.eqb_refl, orb_true_r.
  rewrite (split_app_sep _ _ _ Hp).
  destruct (split_head ","%char body rest Hb) as (more & ->).
  rewrite Hb. reflexivity.
Qed.

Lemma only_second_piece_is_decoded_witness :
  decode_base64_image Sample.libs default_config
    ("data:image/jpeg;base64"
       ++ String ","%char (Sample.image_640x480 ++ String ","%char "!!"))%string
  = decode_base64_image Sample.libs default_config Sample.image_640x480.
Proof.
  apply (only_second_piece_is_decoded Sample.libs default_config
           "data:image/jpeg;base64" Sample.image_640x480 "!!");
    vm_compute; reflexivity.
Defined.

(** X5. A decoded image is in mode RGB, given that Pillow's [resize] keeps
    the mode of the image it is applied to. *)
Theorem decoded_image_is_RGB (L : Libs) (cfg : Config) (s : string)
    (im : Image) :
  Pillow_contract L ->
  (forall src sz out, Image_resize L src sz = Ok out -> mode out = mode src) ->
  decode_base64_image L cfg s = Ok im ->
  mode im = "RGB".
Proof.
  intros C Hresize H.
  apply decode_base64_image_Ok in H. destruct H as (text & H).
  apply decode_try_stages in H.
  destruct H as (data & source & rgb & _ & _ & Hrgb & H).
  assert (M : mode rgb = "RGB").
  { destruct (String.eqb (mode source) "RGB") eqn:E.
    - injection Hrgb as <-. apply String.eqb_eq. exact E.
    - exact (convert_mode L C _ _ _ Hrgb). }
  cbv zeta in H.
  destruct (MAX_IMAGE_SIZE cfg <? Z.max (width rgb) (height rgb)).
  - inv_bind H. inv_bind H. inv_bind H.
    rewrite (Hresize _ _ _ H). exact M.
  - injection H as <-. exact M.
Qed.

Lemma decoded_image_is_RGB_witness :
  mode {| mode := "RGB"; width := 1280; height := 426;
          pixels := list_byte_of_string "pixels" |} = "RGB".
Proof.
  apply (decoded_image_is_RGB Sample.libs default_config
           Sample.image_3000x1000).
  - exact Sample_contract.
  - intros src sz out. simpl. unfold Sample.set_size.
    destruct (_ || _); [discriminate|].
    intros H. injection H as <-. reflexivity.
  - vm_compute; reflexivity.
Defined.

(** X6. The arithmetic of the downscale never raises: for an opened image
    larger than a positive maximum, the [try] block ends with the call of
    [resize] on a target whose sides lie between 0 and the maximum, so its
    outcome, image or exception, is the outcome of that call. *)
Theorem downscale_reaches_resize (L : Libs) (cfg : Config) (text : string)
    (data : list byte) (source rgb : Image) :
  Pillow_contract L ->
  0 < MAX_IMAGE_SIZE cfg ->
  b64decode L text = Ok data ->
  Image_open L data = Ok source ->
  (if String.eqb (mode source) "RGB" then Ok source
   else Image_convert L source "RGB") = Ok rgb ->
  MAX_IMAGE_SIZE cfg < Z.max (width source) (height source) ->
  exists new_w new_h,
    decode_try L cfg text = Image_resize L rgb (new_w, new_h) /\
    0 <= new_w <= MAX_IMAGE_SIZE cfg /\
    0 <= new_h <= MAX_IMAGE_SIZE cfg.
Proof.
  intros C Hmax Hdata Hsource Hrgb Hlong.
  destruct (open_size L C _ _ Hsource) as (Hw & Hh).
  assert (Hsize : size rgb = size source).
  { destruct (String.eqb (mode source) "RGB").
    - injection Hrgb as <-. reflexivity.
    - exact (convert_size L C _ _ _ Hrgb). }
  unfold size in Hsize. injection Hsize as Ew Eh.
  unfold decode_try. rewrite Hdata. simpl bind. rewrite Hsource. simpl bind.
  rewrite Hrgb. simpl bind. rewrite Ew, Eh.
  set (longest := Z.max (width source) (height source)) in *.
  destruct (Z.ltb_spec (MAX_IMAGE_SIZE cfg) longest) as [_|G]; [|lia].
  destruct (resized_side (width source) longest (MAX_IMAGE_SIZE cfg))
    as (ratio & w' & Q1 & Q2 & Q3 & _); try lia.
  destruct (resized_side (height source) longest (MAX_IMAGE_SIZE cfg))
    as (ratio' & h' & Q1' & Q2' & Q3' & _); try lia.
  rewrite Q1 in Q1'. injection Q1' as <-.
  exists w', h'. rewrite Q1. simpl bind. rewrite Q2. simpl bind.
  rewrite Q2'. simpl bind. split; [reflexivity|]. split; assumption.
Qed.

Lemma downscale_reaches_resize_witness :
  exists new_w new_h,
    decode_try Sample.libs default_config Sample.image_3000x1000
    = Image_resize Sample.libs
        {| mode := "RGB"; width := 3000; height := 1000;
           pixels := list_byte_of_string "pixels" |} (new_w, new_h) /\
    0 <= new_w <= 1280 /\ 0 <= new_h <= 1280.
Proof.
  apply (downscale_reaches_resize Sample.libs default_config
           Sample.image_3000x1000
           (list_byte_of_string Sample.image_3000x1000)
           {| mode := "L"; width := 3000; height := 1000;
              pixels := list_byte_of_string "pixels" |}).
  - exact Sample_contract.
  - simpl; lia.
  - vm_compute; reflexivity.
  - vm_compute; reflexivity.
  - vm_compute; reflexivity.
  - simpl; lia.
Defined.



(** ** The gaze heuristic *)

(** X8. A face whose centre is the centre of the image is never flagged:
    the deviation is zero, whatever the size of the box. *)
Theorem centred_face_is_not_looking_away (x1 y1 x2 y2 : float)
    (rest : list float) (others : list (list float)) (image_width : Z) :
  0 < image_width < 2 ^ 53 ->
  PrimFloat.div (PrimFloat.add x1 x2) 2%float
  = PrimFloat.div (PyFloat.of_int image_width) 2%float ->
  estimate_looking_away ((x1 :: y1 :: x2 :: y2 :: rest) :: others) image_width
  = Ok false.
Proof.
  intros Hw Hc.
  rewrite (estimate_looking_away_defined x1 y1 x2 y2 rest others _ Hw).
  f_equal. unfold deviation_ratio. rewrite Hc.
  set (h := PrimFloat.div (PyFloat.of_int image_width) 2%float).
  assert (N : exists v, normal (Prim2SF h) v).
  { destruct (div_normal (PyFloat.of_int image_width) (PyFloat.of_int 2)
                (IZR image_width) 2%R) as (v & Nv & _).
    - apply of_int_normal. exact Hw.
    - apply (of_int_normal 2). lia.
    - assert (1 <= IZR image_width)%R by (apply IZR_le; lia).
      assert (IZR image_width < IZR (2 ^ 53))%R by (apply IZR_lt; lia).
      change (IZR (2 ^ 53)) with 9007199254740992%R in *.
      assert (bpow (-1021) <= bpow (-1))%R by (apply bpow_le; lia).
      assert (bpow 53 < bpow 1023)%R by (apply bpow_lt; lia).
      change (bpow (-1)) with (/ (2 * 1))%R in *.
      rewrite (bpow_IZR 53) in * by lia.
      change (IZR (2 ^ 53)) with 9007199254740992%R in *. lra.
    - exists v. exact Nv. }
  destruct N as (v & m & e & E & _).
  unfold PyFloat.gt. rewrite FloatAxioms.ltb_spec, FloatAxioms.div_spec.
  rewrite abs_spec, FloatAxioms.sub_spec, E.
  unfold SF64sub, SFsub. rewrite Z.min_id. simpl cond_Zopp.
  rewrite Z.sub_diag. reflexivity.
Qed.

Lemma centred_face_is_not_looking_away_witness :
  estimate_looking_away [[300; 100; 340; 300]%float] 640 = Ok false.
Proof.
  apply (centred_face_is_not_looking_away 300 100 340 300 [] [] 640)%float.
  - lia.
  - vm_compute; reflexivity.
Defined.

(** ** The class filter and the detections *)

Lemma Prim2SF_one : Prim2SF 1%float = S754_finite false 4503599627370496 (-52).
Proof. vm_compute; reflexivity. Qed.

Lemma signed_nonzero (s : bool) (a : Z) :
  1 <= a -> ((if s then - a else a) =? 0) = false.
Proof. intros H. destruct s; apply Z.eqb_neq; lia. Qed.

(** [int(x) == 0] holds exactly for the floats strictly between -1 and 1. *)
Lemma to_int_zero_iff (x : float) (c : Z) :
  PyFloat.to_int x = Ok c ->
  (c =? 0) = PrimFloat.ltb (PrimFloat.abs x) 1%float.
Proof.
  unfold PyFloat.to_int. rewrite FloatAxioms.ltb_spec, abs_spec, Prim2SF_one.
  pose proof (Prim2SF_valid x) as V.
  destruct (Prim2SF x) as [s|s| |s m e]; try discriminate.
  - intros H. injection H as <-. reflexivity.
  - intros H. injection H as <-.
    simpl in V. apply andb_prop in V. destruct V as (V & _).
    unfold canonical_mantissa, fexp, SpecFloat.emin, prec, emax in V.
    apply Z.eqb_eq in V.
    pose proof (digits2_pos_bounds m) as [Bl Bu].
    set (d := Zpos (digits2_pos m)) in *.
    unfold SFltb, SFabs, SFcompare, PyFloat.trunc_finite.
    destruct (Z.compare_spec e (-52)) as [E|E|E].
    + subst e. assert (Hd : d = 53) by lia.
      replace (d - 1) with 52 in Bl by lia.
      rewrite Pos.compare_cont_spec. simpl Pos.switch_Eq.
      assert (A : 1 <= Zpos m / 2 ^ 52).
      { apply Z.div_le_lower_bound; lia. }
      rewrite (signed_nonzero s _ A).
      destruct (Pos.compare_spec m 4503599627370496) as [P|P|P];
        try reflexivity.
      exfalso. clear - P Bl. change (2 ^ 52) with (Zpos 4503599627370496) in Bl.
      apply Pos2Z.pos_lt_pos in P. apply (Z.lt_irrefl (Zpos m)).
      apply Z.lt_le_trans with (Zpos 4503599627370496); assumption.
    + assert (Hd : d <= 53) by lia.
      assert (2 ^ d <= 2 ^ 53) by (apply Z.pow_le_mono_r; lia).
      destruct e as [|k|k]; try lia.
      assert (2 ^ 53 <= 2 ^ Zpos k) by (apply Z.pow_le_mono_r; lia).
      rewrite Z.div_small by lia. destruct s; reflexivity.
    + assert (Hd : d = 53) by lia.
      replace (d - 1) with 52 in Bl by lia.
      apply signed_nonzero.
      destruct e as [|k|k].
      * change (2 ^ 0) with 1. lia.
      * assert (0 < 2 ^ Zpos k) by (apply Z.pow_pos_nonneg; lia).
        assert (0 < Zpos m * 2 ^ Zpos k) by (apply Z.mul_pos_pos; lia).
        lia.
      * assert (0 < 2 ^ Zpos k) by (apply Z.pow_pos_nonneg; lia).
        assert (2 ^ Zpos k <= 2 ^ 52) by (apply Z.pow_le_mono_r; lia).
        apply Z.div_le_lower_bound; lia.
Qed.

(** X9. The class filter truncates: a box whose class id converts to an
    integer is kept exactly when the id lies strictly between -1 and 1, so
    an id of 0.5 or -0.9 counts as class 0. *)
Theorem class_filter_keeps_ids_below_one (b : Box)
    (acc out : list (list float) * list float) :
  collect_boxes [b] acc = Ok out ->
  out = if PrimFloat.ltb (PrimFloat.abs (cls b)) 1%float
        then (fst acc ++ [xyxy b], snd acc ++ [conf b])
        else acc.
Proof.
  simpl. intros H. inv_bind H.
  rewrite <- (to_int_zero_iff _ _ Hv). injection H as <-. reflexivity.
Qed.

Lemma class_filter_keeps_ids_below_one_witness :
  ([[1; 2; 3; 4]%float], [0.75%float])
  = if PrimFloat.ltb (PrimFloat.abs (-0.5)%float) 1%float
    then ([] ++ [[1; 2; 3; 4]%float], [] ++ [0.75%float])
    else ([], []).
Proof.
  apply (class_filter_keeps_ids_below_one
           {| cls := (-0.5)%float; xyxy := [1; 2; 3; 4]%float;
              conf := 0.75%float |} ([], [])).
  vm_compute; reflexivity.
Defined.

(** With finite class ids the loops run to their end and keep the
    detections, in the order of the model. *)
Lemma collect_boxes_total (bs : list Box) :
  forall acc,
    Forall class_id_finite bs ->
    collect_boxes bs acc
    = Ok (fst acc ++ map xyxy (filter passes_class_filter bs),
          snd acc ++ map conf (filter passes_class_filter bs)).
Proof.
  induction bs as [|b bs IH]; simpl; intros acc F.
  - rewrite !app_nil_r. destruct acc; reflexivity.
  - inversion F as [|? ? (c & Hc) F']; subst.
    assert (P : passes_class_filter b = (c =? 0))
      by (unfold passes_class_filter; rewrite Hc; reflexivity).
    rewrite Hc, P. simpl bind. rewrite (IH _ F').
    destruct (c =? 0); simpl.
    + rewrite <- !app_assoc. reflexivity.
    + reflexivity.
Qed.

Lemma collect_results_total (results : list Results) :
  forall acc,
    Forall class_id_finite (all_boxes results) ->
    collect_results results acc
    = Ok (fst acc ++ map xyxy (detections results),
          snd acc ++ map conf (detections results)).
Proof.
  unfold detections.
  induction results as [|r results IH]; simpl; intros acc F.
  - rewrite !app_nil_r. destruct acc; reflexivity.
  - apply Forall_app in F. destruct F as (F1 & F2).
    rewrite filter_app, !map_app.
    destruct (boxes r) as [bs|].
    + rewrite (collect_boxes_total bs acc F1). simpl bind.
      rewrite (IH _ F2). simpl. rewrite !app_assoc. reflexivity.
    + simpl bind. rewrite (IH _ F2). reflexivity.
Qed.

Lemma infer_and_compose_spec (cfg : Config) (model : YOLO) (image : Image)
    (t0 t1 : float) (results : list Results) :
  predict model image (CONFIDENCE_THRESHOLD cfg) = Ok results ->
  Forall class_id_finite (all_boxes results) ->
  infer_and_compose cfg model image t0 t1
  = compose (map xyxy (detections results)) (map conf (detections results))
      image t0 t1.
Proof.
  intros Hp F. unfold infer_and_compose. rewrite Hp. simpl bind.
  rewrite (collect_results_total results ([], []) F). reflexivity.
Qed.

(** ** The response of [POST /analyze] *)

Lemma compose_Ok (bxs : list (list float)) (confs : list float)
    (image : Image) (t0 t1 : float) (resp : AnalyzeResponse) :
  compose bxs confs image t0 t1 = Ok resp ->
  exists c l,
    resp = {| success := true;
              face_count := Z.of_nat (List.length bxs);
              confidence := c;
              looking_away := l;
              processing_time_ms := elapsed_ms t0 t1;
              bounding_boxes := Some bxs;
              error := None |}.
Proof.
  unfold compose. intros H. inv_bind H. inv_bind H. injection H as <-.
  exists v, v0. reflexivity.
Qed.

(** X10. A response computed by the model lists the boxes of the class-0
    detections in the order the model reported them; its face count is
    their number, it carries no error text, and its processing time is
    the elapsed time in milliseconds. *)
Theorem response_lists_the_detections (L : Libs) (cfg : Config)
    (model : YOLO) (s : string) (t0 t1 : float) (image : Image)
    (results : list Results) (resp : AnalyzeResponse) :
  decode_base64_image L cfg s = Ok image ->
  predict model image (CONFIDENCE_THRESHOLD cfg) = Ok results ->
  analyze_face L cfg (Some model) s t0 t1 = Http200 resp ->
  bounding_boxes resp = Some (map xyxy (detections results)) /\
  face_count resp = Z.of_nat (List.length (detections results)) /\
  error resp = None /\
  processing_time_ms resp = elapsed_ms t0 t1.
Proof.
  intros Hd Hp H.
  apply analyze_face_200 in H. destruct H as (image' & Hd' & H).
  rewrite Hd in Hd'. injection Hd' as <-.
  apply infer_and_compose_Ok in H. destruct H as (results' & Hp' & H).
  rewrite Hp in Hp'. injection Hp' as <-.
  apply compose_Ok in H. destruct H as (c & l & ->). simpl.
  rewrite length_map. repeat split.
Qed.

Lemma response_lists_the_detections_witness :
  let resp :=
    {| success := true; face_count := 2; confidence := 0.875%float;
       looking_away := false; processing_time_ms := 1000%float;
       bounding_boxes := Some [xyxy Sample.box_right; xyxy Sample.box_middle];
       error := None |} in
  bounding_boxes resp
  = Some (map xyxy [Sample.box_right; Sample.box_middle]) /\
  face_count resp = 2.
Proof.
  intros resp.
  destruct (response_lists_the_detections Sample.libs default_config
              (Sample.model_of [Sample.box_right; Sample.box_other;
                                Sample.box_middle])
              Sample.image_640x480 1%float 2%float
              {| mode := "RGB"; width := 640; height := 480;
                 pixels := list_byte_of_string "pixels" |}
              [ {| boxes := Some [Sample.box_right; Sample.box_other;
                                  Sample.box_middle] |} ]
              resp)
    as (B & F & _).
  - vm_compute; reflexivity.
  - reflexivity.
  - vm_compute; reflexivity.
  - split; [exact B | exact F].
Defined.

(** X11. When the model reports no box of class 0 (no result, results
    without boxes, or boxes of other classes only), the analysis succeeds,
    whatever the size of the image, with zero faces, confidence 0.0, not
    looking away and an empty list of boxes. *)
Theorem no_detection_response (L : Libs) (cfg : Config) (model : YOLO)
    (s : string) (t0 t1 : float) (image : Image) (results : list Results) :
  decode_base64_image L cfg s = Ok image ->
  predict model image (CONFIDENCE_THRESHOLD cfg) = Ok results ->
  Forall class_id_finite (all_boxes results) ->
  detections results = [] ->
  analyze_face L cfg (Some model) s t0 t1
  = Http200 {| success := true;
               face_count := 0;
               confidence := 0%float;
               looking_away := false;
               processing_time_ms := elapsed_ms t0 t1;
               bounding_boxes := Some [];
               error := None |}.
Proof.
  intros Hd Hp F E. unfold analyze_face, analyze_try. rewrite Hd. simpl bind.
  rewrite (infer_and_compose_spec cfg model image t0 t1 results Hp F), E.
  reflexivity.
Qed.

Lemma no_detection_response_witness :
  analyze_face Sample.libs default_config
    (Some (Sample.model_of [Sample.box_other])) Sample.image_640x480
    1%float 2%float
  = Http200 {| success := true; face_count := 0; confidence := 0%float;
               looking_away := false;
               processing_time_ms := elapsed_ms 1%float 2%float;
               bounding_boxes := Some []; error := None |}.
Proof.
  apply (no_detection_response Sample.libs default_config
           (Sample.model_of [Sample.box_other]) Sample.image_640x480
           1%float 2%float
           {| mode := "RGB"; width := 640; height := 480;
              pixels := list_byte_of_string "pixels" |}
           [ {| boxes := Some [Sample.box_other] |} ]).
  - vm_compute; reflexivity.
  - reflexivity.
  - repeat constructor. exists 16. vm_compute; reflexivity.
  - vm_compute; reflexivity.
Defined.

(** X12. Boxes of other classes never change the answer: two model
    outputs with finite class ids and the same class-0 detections get the
    same response. *)
Theorem other_classes_are_ignored (L : Libs) (cfg : Config)
    (model1 model2 : YOLO) (s : string) (t0 t1 : float) (image : Image)
    (results1 results2 : list Results) :
  decode_base64_image L cfg s = Ok image ->
  predict model1 image (CONFIDENCE_THRESHOLD cfg) = Ok results1 ->
  predict model2 image (CONFIDENCE_THRESHOLD cfg) = Ok results2 ->
  Forall class_id_finite (all_boxes results1) ->
  Forall class_id_finite (all_boxes results2) ->
  detections results1 = detections results2 ->
  analyze_face L cfg (Some model1) s t0 t1
  = analyze_face L cfg (Some model2) s t0 t1.
Proof.
  intros Hd H1 H2 F1 F2 E. unfold analyze_face, analyze_try.
  rewrite Hd. simpl bind.
  rewrite (infer_and_compose_spec cfg model1 image t0 t1 results1 H1 F1).
  rewrite (infer_and_compose_spec cfg model2 image t0 t1 results2 H2 F2).
  rewrite E. reflexivity.
Qed.

Lemma other_classes_are_ignored_witness :
  analyze_face Sample.libs default_config
    (Some (Sample.model_of [Sample.box_other; Sample.box_right]))
    Sample.image_640x480 1%float 2%float
  = analyze_face Sample.libs default_config
      (Some (Sample.model_of [Sample.box_right]))
      Sample.image_640x480 1%float 2%float.
Proof.
  apply (other_classes_are_ignored Sample.libs default_config
           (Sample.model_of [Sample.box_other; Sample.box_right])
           (Sample.model_of [Sample.box_right])
           Sample.image_640x480 1%float 2%float
           {| mode := "RGB"; width := 640; height := 480;
              pixels := list_byte_of_string "pixels" |}
           [ {| boxes := Some [Sample.box_other; Sample.box_right] |} ]
           [ {| boxes := Some [Sample.box_right] |} ]).
  - vm_compute; reflexivity.
  - reflexivity.
  - reflexivity.
  - repeat constructor; [exists 16 | exists 0]; vm_compute; reflexivity.
  - repeat constructor. exists 0. vm_compute; reflexivity.
  - vm_compute; reflexivity.
Defined.

(** X13. On an image of width 0 a single detection cannot be judged: the
    division by the half width raises [ZeroDivisionError] and the request
    is answered with status 500. *)
Theorem zero_width_image_is_500 (L : Libs) (cfg : Config) (model : YOLO)
    (s : string) (t0 t1 : float) (image : Image) (results : list Results)
    (b : Box) (x1 y1 x2 y2 : float) (rest : list float) :
  decode_base64_image L cfg s = Ok image ->
  width image = 0 ->
  predict model image (CONFIDENCE_THRESHOLD cfg) = Ok results ->
  Forall class_id_finite (all_boxes results) ->
  detections results = [b] ->
  xyxy b = x1 :: y1 :: x2 :: y2 :: rest ->
  exists detail, analyze_face L cfg (Some model) s t0 t1 = HttpError 500 detail.
Proof.
  intros Hd Hw Hp F E Hb. unfold analyze_face, analyze_try.
  rewrite Hd. simpl bind.
  rewrite (infer_and_compose_spec cfg model image t0 t1 results Hp F), E.
  unfold compose. simpl map. rewrite Hb, Hw. simpl.
  eexists. reflexivity.
Qed.

Lemma zero_width_image_is_500_witness :
  exists detail,
    analyze_face Sample.libs default_config
      (Some (Sample.model_of [Sample.box_right]))
      (String (ascii_of_nat 0) (String (ascii_of_nat 0)
         (String (ascii_of_nat 1) (String (ascii_of_nat 224) "pixels"))))
      1%float 2%float
    = HttpError 500 detail.
Proof.
  apply (zero_width_image_is_500 Sample.libs default_config
           (Sample.model_of [Sample.box_right]) _ 1%float 2%float
           {| mode := "RGB"; width := 0; height := 480;
              pixels := list_byte_of_string "pixels" |}
           [ {| boxes := Some [Sample.box_right] |} ]
           Sample.box_right 500%float 100%float 620%float 300%float []).
  - vm_compute; reflexivity.
  - reflexivity.
  - reflexivity.
  - repeat constructor. exists 0. vm_compute; reflexivity.
  - vm_compute; reflexivity.
  - reflexivity.
Defined.

(** ** The proctoring client *)

(** X14. The verdict lists at most one violation, and none exactly when
    the face count is 1 without looking away, or when the count is
    negative (a count no branch of the verdict tests for). *)
Theorem verdict_has_at_most_one_violation (face_count : Z)
    (looking_away : bool) :
  (List.length (Client.verdict face_count looking_away) <= 1)%nat /\
  (Client.verdict face_count looking_away = [] <->
   (face_count = 1 /\ looking_away = false) \/ face_count < 0).
Proof.
  unfold Client.verdict.
  destruct (Z.eqb_spec face_count 0) as [E0|N0].
  - subst. simpl. split; [lia|]. split; [discriminate|].
    intros [[H _]|H]; [discriminate H | lia].
  - destruct (Z.ltb_spec 1 face_count) as [G|G].
    + destruct (Z.eqb_spec face_count 1) as [E1|N1]; [lia|]. simpl.
      split; [lia|]. split; [discriminate|]. intros [[H _]|H]; lia.
    + destruct (Z.eqb_spec face_count 1) as [E1|N1]; simpl.
      * destruct looking_away; simpl.
        -- split; [lia|]. split; [discriminate|].
           intros [[_ H]|H]; [discriminate H | lia].
        -- split; [lia|]. split; [|reflexivity].
           intros _. left. split; [exact E1 | reflexivity].
      * split; [lia|]. split; [intros _; right; lia | reflexivity].
Qed.

(** The shape of every body the service returns. *)
Lemma service_body_shape (L : Libs) (cfg : Config)
    (yolo_model : option YOLO) (s : string) (t0 t1 : float)
    (resp : AnalyzeResponse) :
  analyze_face L cfg yolo_model s t0 t1 = Http200 resp ->
  success resp = true /\
  0 <= face_count resp /\
  (looking_away resp = true -> face_count resp = 1).
Proof.
  intros H. destruct yolo_model as [model|].
  - apply analyze_face_200 in H. destruct H as (image & _ & H).
    apply infer_and_compose_Ok in H. destruct H as (results & _ & H).
    apply compose_fields in H. destruct H as (Hs & Hn & _ & _ & Hl).
    split; [exact Hs|]. split; [rewrite Hn; lia|].
    rewrite <- Hn in Hl. intros Ht.
    destruct (Z.eqb_spec (face_count resp) 1) as [E|N]; [exact E|].
    injection Hl as Hl. rewrite Ht in Hl. discriminate Hl.
  - simpl in H. injection H as <-. simpl.
    split; [reflexivity|]. split; [lia|]. discriminate.
Qed.

(** X15. While the service has no model, the client reports a single
    face of excellent confidence and no violation for every frame it
    sends, whatever the frame shows and even if it is no image at all. *)
Theorem degraded_service_reports_no_violation (L : Libs) (cfg : Config)
    (s : string) (t0 t1 : float) :
  exists report,
    Client.main_report (Client.Responded (analyze_face L cfg None s t0 t1))
    = Some (Client.ShownReport report) /\
    Client.face_status report = Client.SingleFace /\
    Client.face_violation report = false /\
    Client.quality report = Client.Excellent /\
    Client.head_pose_violation report = false /\
    Client.violations report = [].
Proof.
  eexists. split; [reflexivity|]. repeat split.
Qed.

(** X16. The client shows a report exactly when the service answered
    with status 200, and "Analysis failed" for every HTTP error; the
    branch of [display_results] for a result without success is never
    taken on an answer of this service. *)
Theorem client_shows_report_iff_200 (L : Libs) (cfg : Config)
    (yolo_model : option YOLO) (s : string) (t0 t1 : float) :
  let answer := analyze_face L cfg yolo_model s t0 t1 in
  let shown := Client.main_report (Client.Responded answer) in
  (forall error, shown <> Some (Client.ShownFailure error)) /\
  ((exists body, answer = Http200 body) <->
   exists report, shown = Some (Client.ShownReport report)) /\
  ((exists code detail, answer = HttpError code detail) <-> shown = None).
Proof.
  cbv zeta.
  destruct (analyze_face L cfg yolo_model s t0 t1) as [body|code detail] eqn:A.
  - destruct (service_body_shape _ _ _ _ _ _ _ A) as (Hs & _).
    unfold Client.main_report, Client.analyze_face, Client.display_results.
    rewrite Hs. simpl negb. cbv iota.
    split; [intros error; discriminate|]. split.
    + split; [intros _; eexists; reflexivity | intros _; exists body; reflexivity].
    + split; [intros (c & d & E); discriminate E | discriminate].
  - simpl. split; [intros error; discriminate|]. split.
    + split; [intros (b & E); discriminate E | intros (r & E); discriminate E].
    + split; [reflexivity | intros _; exists code, detail; reflexivity].
Qed.

(** X17. On every answer of the service the sections of the report agree
    with the verdict: the face section shows a high-severity violation
    exactly when the verdict lists a missing or a multiple face, and the
    head-pose section shows a violation exactly when the verdict lists
    looking away. *)
Theorem report_sections_agree_with_verdict (L : Libs) (cfg : Config)
    (yolo_model : option YOLO) (s : string) (t0 t1 : float)
    (resp : AnalyzeResponse) :
  analyze_face L cfg yolo_model s t0 t1 = Http200 resp ->
  exists report,
    Client.display_results resp = Client.ShownReport report /\
    (Client.face_violation report = true <->
     In "NO_FACE_DETECTED (HIGH)" (Client.violations report) \/
     In "MULTIPLE_FACES (HIGH)" (Client.violations report)) /\
    (Client.head_pose_violation report = true <->
     In "LOOKING_AWAY (MEDIUM)" (Client.violations report)).
Proof.
  intros H. destruct (service_body_shape _ _ _ _ _ _ _ H) as (Hs & Hn & Hl).
  unfold Client.display_results. rewrite Hs. simpl negb. cbv iota.
  eexists. split; [reflexivity|]. simpl. unfold Client.verdict.
  destruct (Z.eqb_spec (face_count resp) 0) as [E0|N0].
  - destruct (Z.eqb_spec (face_count resp) 1) as [E1|N1]; [lia|].
    simpl. split.
    + split; [intros _; left; left; reflexivity | reflexivity].
    + split.
      * intros Ht. specialize (Hl Ht). lia.
      * intros [E|[]]. discriminate E.
  - destruct (Z.eqb_spec (face_count resp) 1) as [E1|N1].
    + destruct (Z.ltb_spec 1 (face_count resp)) as [G|G]; [lia|].
      simpl. split.
      * split; [discriminate|].
        destruct (looking_away resp); simpl; intuition discriminate.
      * destruct (looking_away resp); simpl.
        -- split; [intros _; left; reflexivity | reflexivity].
        -- split; [discriminate | intros []].
    + destruct (Z.ltb_spec 1 (face_count resp)) as [G|G]; [|lia].
      simpl. split.
      * split; [intros _; right; left; reflexivity | reflexivity].
      * split.
        -- intros Ht. specialize (Hl Ht). lia.
        -- intros [E|[]]. discriminate E.
Qed.

Lemma report_sections_agree_with_verdict_witness :
  exists report,
    Client.display_results
      {| success := true; face_count := 2; confidence := 0.875%float;
         looking_away := false; processing_time_ms := 1000%float;
         bounding_boxes :=
           Some [xyxy Sample.box_right; xyxy Sample.box_middle];
         error := None |}
    = Client.ShownReport report /\
    (Client.face_violation report = true <->
     In "NO_FACE_DETECTED (HIGH)" (Client.violations report) \/
     In "MULTIPLE_FACES (HIGH)" (Client.violations report)) /\
    (Client.head_pose_violation report = true <->
     In "LOOKING_AWAY (MEDIUM)" (Client.violations report)).
Proof.
  apply (report_sections_agree_with_verdict Sample.libs default_config
           (Some (Sample.model_of [Sample.box_right; Sample.box_other;
                                   Sample.box_middle]))
           Sample.image_640x480 1%float 2%float).
  vm_compute; reflexivity.
Defined.

(** ** When the analysis succeeds *)

(** X18. After the image is decoded and the model has answered, nothing
    else can fail on an image of positive width: if every class id is
    finite and every detection box has its four coordinates, the request
    is answered with status 200. *)
Theorem analysis_succeeds (L : Libs) (cfg : Config) (model : YOLO)
    (s : string) (t0 t1 : float) (image : Image) (results : list Results) :
  decode_base64_image L cfg s = Ok image ->
  0 < width image < 2 ^ 53 ->
  predict model image (CONFIDENCE_THRESHOLD cfg) = Ok results ->
  Forall class_id_finite (all_boxes results) ->
  Forall (fun b => (4 <= List.length (xyxy b))%nat) (detections results) ->
  exists resp, analyze_face L cfg (Some model) s t0 t1 = Http200 resp.
Proof.
  intros Hd Hw Hp F B. unfold analyze_face, analyze_try.
  rewrite Hd. simpl bind.
  rewrite (infer_and_compose_spec cfg model image t0 t1 results Hp F).
  unfold compose. rewrite !length_map.
  destruct (detections results) as [|b [|b' more]].
  - eexists. reflexivity.
  - inversion B as [|? ? Hb _]; subst.
    destruct (xyxy b) as [|x1 [|y1 [|x2 [|y2 rest]]]] eqn:E;
      simpl in Hb; try lia.
    cbn [map]. rewrite E.
    rewrite (estimate_looking_away_defined x1 y1 x2 y2 rest [] _ Hw).
    eexists. reflexivity.
  - destruct (Z.eqb_spec (Z.of_nat (List.length (b :: b' :: more))) 1)
      as [E|_]; [simpl List.length in E; lia|].
    eexists. reflexivity.
Qed.

Lemma analysis_succeeds_witness :
  exists resp,
    analyze_face Sample.libs default_config
      (Some (Sample.model_of [Sample.box_other; Sample.box_right]))
      Sample.image_640x480 1%float 2%float = Http200 resp.
Proof.
  apply (analysis_succeeds Sample.libs default_config
           (Sample.model_of [Sample.box_other; Sample.box_right])
           Sample.image_640x480 1%float 2%float
           {| mode := "RGB"; width := 640; height := 480;
              pixels := list_byte_of_string "pixels" |}
           [ {| boxes := Some [Sample.box_other; Sample.box_right] |} ]).
  - vm_compute; reflexivity.
  - simpl; lia.
  - reflexivity.
  - repeat constructor; [exists 16 | exists 0]; vm_compute; reflexivity.
  - vm_compute. repeat constructor.
Defined.
